(** * Cell vertexes of the H3 grid: a model of [src/h3lib/lib/vertex.c]

    The functions of [vertex.c] are embedded as Rocq functions over [Z].
    C [int] values are integers, [%] is the truncating remainder [Z.rem],
    [H3Index] is an unsigned 64-bit integer.  A computation that the C
    standard leaves undefined (an array read outside its bounds, a read of
    the automatic variable [dirFaces] before it was assigned) is [None]. *)

From Stdlib Require Import ZArith List Bool Lia.
Import ListNotations.
Local Open Scope Z_scope.

(** ** Undefined behaviour as an error monad *)

Definition bind {A B : Type} (m : option A) (k : A -> option B) : option B :=
  match m with
  | Some a => k a
  | None => None
  end.

Notation "x <- m ;; k" := (bind m (fun x => k))
  (at level 61, m at next level, right associativity).

(** [a && b] of C: [b] is evaluated only when [a] holds. *)
Definition andC (a : bool) (b : option bool) : option bool :=
  if a then b else Some false.

(** [a || b] of C: [b] is evaluated only when [a] fails. *)
Definition orC (a : bool) (b : option bool) : option bool :=
  if a then Some true else b.

(** [t[i]] for a C array [t]: defined inside the bounds only. *)
Definition index {A : Type} (t : list A) (i : Z) : option A :=
  if i <? 0 then None else nth_error t (Z.to_nat i).

(** ** Constants

    Modelled from the spec: the [Direction] enumeration (coordijk.h) and the
    vertex constants (vertex.h, constants.h) are not under src/.  The spec
    gives digits in 0..6 with 0 the center and 1 the deleted K axis, one
    further invalid value, six corners for a hexagon, five for a pentagon,
    122 base cells and 12 pentagons; the comments of [vertex.c] place
    [J_AXES_DIGIT] at [DIRECTION_INDEX_OFFSET] and the two direction tables
    fix the remaining digits. *)

Definition Direction := Z.

Definition CENTER_DIGIT : Direction := 0.
Definition K_AXES_DIGIT : Direction := 1.
Definition J_AXES_DIGIT : Direction := 2.
Definition JK_AXES_DIGIT : Direction := 3.
Definition I_AXES_DIGIT : Direction := 4.
Definition IK_AXES_DIGIT : Direction := 5.
Definition IJ_AXES_DIGIT : Direction := 6.
Definition INVALID_DIGIT : Direction := 7.
Definition NUM_DIGITS : Z := INVALID_DIGIT.

Definition NUM_HEX_VERTS : Z := 6.
Definition NUM_PENT_VERTS : Z := 5.
Definition INVALID_VERTEX_NUM : Z := -1.
Definition NUM_PENTAGONS : Z := 12.
Definition NUM_BASE_CELLS : Z := 122.

Definition DIRECTION_INDEX_OFFSET : Z := 2.

(** ** The packed index

    Modelled from the spec: the macros of h3Index.h are not under src/.  The
    spec has a mode tag and a small reserved field inside the packed
    integer; the layout below is the one of the H3 index format: the mode in
    bits 59-62, the reserved field in bits 56-58 of a 64-bit word. *)

Definition H3Index := Z.

Definition uint64 (x : Z) : Z := x mod 2 ^ 64.

Definition H3_NULL : H3Index := 0.
Definition H3_HEXAGON_MODE : Z := 1.
Definition H3_VERTEX_MODE : Z := 4.

Definition H3_MODE_OFFSET : Z := 59.
Definition H3_RESERVED_OFFSET : Z := 56.
Definition H3_MODE_MASK : Z := Z.shiftl 15 H3_MODE_OFFSET.
Definition H3_RESERVED_MASK : Z := Z.shiftl 7 H3_RESERVED_OFFSET.
Definition H3_MODE_MASK_NEGATIVE : Z := uint64 (Z.lnot H3_MODE_MASK).
Definition H3_RESERVED_MASK_NEGATIVE : Z := uint64 (Z.lnot H3_RESERVED_MASK).

Definition H3_SET_MODE (h3 : H3Index) (v : Z) : H3Index :=
  Z.lor (Z.land h3 H3_MODE_MASK_NEGATIVE)
        (uint64 (Z.shiftl (uint64 v) H3_MODE_OFFSET)).

Definition H3_GET_RESERVED_BITS (h3 : H3Index) : Z :=
  Z.shiftr (Z.land h3 H3_RESERVED_MASK) H3_RESERVED_OFFSET.

Definition H3_SET_RESERVED_BITS (h3 : H3Index) (v : Z) : H3Index :=
  Z.lor (Z.land h3 H3_RESERVED_MASK_NEGATIVE)
        (uint64 (Z.shiftl (uint64 v) H3_RESERVED_OFFSET)).

(** ** Tables of [vertex.c] *)

Record PentagonDirectionFaces : Type := {
  baseCell : Z;
  faces : list Z
}.

Definition pentagonDirectionFaces : list PentagonDirectionFaces :=
  [ {| baseCell := 4; faces := [4; 0; 2; 1; 3] |};
    {| baseCell := 14; faces := [6; 11; 2; 7; 1] |};
    {| baseCell := 24; faces := [5; 10; 1; 6; 0] |};
    {| baseCell := 38; faces := [7; 12; 3; 8; 2] |};
    {| baseCell := 49; faces := [9; 14; 0; 5; 4] |};
    {| baseCell := 58; faces := [8; 13; 4; 9; 3] |};
    {| baseCell := 63; faces := [11; 6; 15; 10; 16] |};
    {| baseCell := 72; faces := [12; 7; 16; 11; 17] |};
    {| baseCell := 83; faces := [10; 5; 19; 14; 15] |};
    {| baseCell := 97; faces := [13; 8; 17; 12; 18] |};
    {| baseCell := 107; faces := [14; 9; 18; 13; 19] |};
    {| baseCell := 117; faces := [15; 19; 17; 18; 16] |} ].

Definition directionToVertexNumHex : list Z :=
  [INVALID_DIGIT; 3; 1; 2; 5; 4; 0].

Definition directionToVertexNumPent : list Z :=
  [INVALID_DIGIT; INVALID_DIGIT; 1; 2; 4; 3; 0].

Definition vertexNumToDirectionHex : list Direction :=
  [IJ_AXES_DIGIT; J_AXES_DIGIT; JK_AXES_DIGIT;
   K_AXES_DIGIT; IK_AXES_DIGIT; I_AXES_DIGIT].

Definition vertexNumToDirectionPent : list Direction :=
  [IJ_AXES_DIGIT; J_AXES_DIGIT; JK_AXES_DIGIT; IK_AXES_DIGIT; I_AXES_DIGIT].

Definition neighborVertexes : list (list Z) :=
  [[4; 2]; [5; 3]; [0; 4]; [1; 5]; [2; 0]; [3; 1]].

(** ** Collaborators

    The functions [vertex.c] calls in the rest of the library (h3Index.c,
    baseCells.c, faceijk.c, algos.c) are not under src/; the model takes
    them as an interface. *)

Record CoordIJK : Type := { i : Z; j : Z; k : Z }.

Record FaceIJK : Type := { face : Z; coord : CoordIJK }.

Record Collaborators : Type := {
  (** [_h3ToFaceIjk(h, &fijk)]: the face and coordinates of a cell. *)
  _h3ToFaceIjk : H3Index -> FaceIJK;
  (** [h3GetBaseCell(h)]. *)
  h3GetBaseCell : H3Index -> Z;
  (** [_h3LeadingNonZeroDigit(h)]. *)
  _h3LeadingNonZeroDigit : H3Index -> Direction;
  (** [_baseCellToFaceIjk(baseCell, &fijk)]: the home face of a base cell. *)
  _baseCellToFaceIjk : Z -> FaceIJK;
  (** [_baseCellToCCWrot60(baseCell, face)]. *)
  _baseCellToCCWrot60 : Z -> Z -> Z;
  (** [_isBaseCellPentagon(baseCell)]. *)
  _isBaseCellPentagon : Z -> bool;
  (** [_isBaseCellPolarPentagon(baseCell)]. *)
  _isBaseCellPolarPentagon : Z -> bool;
  (** [h3IsPentagon(h)]. *)
  h3IsPentagon : H3Index -> bool;
  (** [h3NeighborRotations(origin, dir, &rotations)]: the neighbor, and the
      value left in [rotations]. *)
  h3NeighborRotations : H3Index -> Direction -> Z -> H3Index * Z;
  (** [directionForNeighbor(origin, destination)]. *)
  directionForNeighbor : H3Index -> H3Index -> Direction
}.

Section Vertex.

Variable E : Collaborators.

(** The loop of [vertexRotations] over [pentagonDirectionFaces]: the first
    entry of the base cell, [None] when the loop ends without assigning
    [dirFaces]. *)
Definition findDirFaces (bc : Z) : option PentagonDirectionFaces :=
  find (fun e => baseCell e =? bc) pentagonDirectionFaces.

(** [dirFaces.faces[digit - DIRECTION_INDEX_OFFSET]]. *)
Definition dirFace (dirFaces : option PentagonDirectionFaces)
    (digit : Direction) : option Z :=
  df <- dirFaces ;; index (faces df) (digit - DIRECTION_INDEX_OFFSET).

(** [fijk.face == dirFaces.faces[digit - DIRECTION_INDEX_OFFSET]]. *)
Definition onDirFace (f : Z) (dirFaces : option PentagonDirectionFaces)
    (digit : Direction) : option bool :=
  g <- dirFace dirFaces digit ;; Some (f =? g).

(** First block of the pentagon branch: additional CCW rotation for polar
    neighbors or IK neighbors. *)
Definition polarOrIKRotation (bc f homeFace : Z)
    (dirFaces : option PentagonDirectionFaces) (ccwRot60 : Z) : option Z :=
  c <- andC (negb (f =? homeFace))
            (orC (_isBaseCellPolarPentagon E bc)
                 (onDirFace f dirFaces IK_AXES_DIGIT)) ;;
  Some (if c then Z.rem (ccwRot60 + 1) 6 else ccwRot60).

(** Second block of the pentagon branch: the cell crosses a deleted
    pentagon subsequence. *)
Definition deletedSubsequenceRotation (cellLeadingDigit : Direction) (f : Z)
    (dirFaces : option PentagonDirectionFaces) (ccwRot60 : Z) : option Z :=
  c1 <- andC (cellLeadingDigit =? JK_AXES_DIGIT)
             (onDirFace f dirFaces IK_AXES_DIGIT) ;;
  if c1 then Some (Z.rem (ccwRot60 + 5) 6)
  else
    c2 <- andC (cellLeadingDigit =? IK_AXES_DIGIT)
               (onDirFace f dirFaces JK_AXES_DIGIT) ;;
    Some (if c2 then Z.rem (ccwRot60 + 1) 6 else ccwRot60).

Definition vertexRotations (cell : H3Index) (adjustForPentagon : bool)
    : option Z :=
  let fijk := _h3ToFaceIjk E cell in
  let bc := h3GetBaseCell E cell in
  let cellLeadingDigit := _h3LeadingNonZeroDigit E cell in
  let baseFijk := _baseCellToFaceIjk E bc in
  let ccwRot60 := _baseCellToCCWrot60 E bc (face fijk) in
  if adjustForPentagon && _isBaseCellPentagon E bc then
    let dirFaces := findDirFaces bc in
    ccwRot60 <- polarOrIKRotation bc (face fijk) (face baseFijk)
                  dirFaces ccwRot60 ;;
    deletedSubsequenceRotation cellLeadingDigit (face fijk) dirFaces ccwRot60
  else Some ccwRot60.

Definition vertexNumForDirection (origin : H3Index) (direction : Direction)
    : option Z :=
  let isPentagon := h3IsPentagon E origin in
  if (direction =? CENTER_DIGIT) || (direction >=? INVALID_DIGIT)
     || (isPentagon && (direction =? K_AXES_DIGIT))
  then Some INVALID_VERTEX_NUM
  else
    rotations <- vertexRotations origin true ;;
    if isPentagon then
      n <- index directionToVertexNumPent direction ;;
      Some (Z.rem (n + NUM_PENT_VERTS - rotations) NUM_PENT_VERTS)
    else
      n <- index directionToVertexNumHex direction ;;
      Some (Z.rem (n + NUM_HEX_VERTS - rotations) NUM_HEX_VERTS).

Definition directionForVertexNum (origin : H3Index) (vertexNum : Z)
    : option Direction :=
  let isPentagon := h3IsPentagon E origin in
  if (vertexNum <? 0)
     || (vertexNum >? (if isPentagon then NUM_PENT_VERTS else NUM_HEX_VERTS) - 1)
  then Some INVALID_DIGIT
  else
    rotations <- vertexRotations origin true ;;
    if isPentagon then
      index vertexNumToDirectionPent (Z.rem (vertexNum + rotations) NUM_PENT_VERTS)
    else
      index vertexNumToDirectionHex (Z.rem (vertexNum + rotations) NUM_HEX_VERTS).

(** ** [getCellVertex] *)

(** Owner by convention: the cell with the lowest numerical index. *)
Definition lowestIndex (origin leftNeighbor rightNeighbor : H3Index)
    : H3Index :=
  let owner := origin in
  let owner := if leftNeighbor <? owner then leftNeighbor else owner in
  let owner := if rightNeighbor <? owner then rightNeighbor else owner in
  owner.

(** [neighborVertexes[vertexNum][side]]. *)
Definition neighborVertex (vertexNum side : Z) : option Z :=
  row <- index neighborVertexes vertexNum ;; index row side.

(** The branch [owner == leftNeighbor]. *)
Definition leftOwnerVertexNum (isSimpleCase ownerIsPentagon : bool)
    (owner origin : H3Index) (vertexNum : Z) : option Z :=
  if isSimpleCase then neighborVertex vertexNum 0
  else
    let dir := directionForNeighbor E owner origin in
    n <- vertexNumForDirection owner dir ;;
    let ownerVertexNum := n + 1 in
    if (ownerIsPentagon && (ownerVertexNum =? NUM_PENT_VERTS))
       || (ownerVertexNum =? NUM_HEX_VERTS)
    then Some 0
    else Some ownerVertexNum.

(** The branch [owner == rightNeighbor]. *)
Definition rightOwnerVertexNum (isSimpleCase : bool)
    (owner origin : H3Index) (vertexNum : Z) : option Z :=
  if isSimpleCase then neighborVertex vertexNum 1
  else
    let dir := directionForNeighbor E owner origin in
    vertexNumForDirection owner dir.

(** The test for the simpler, faster logic. *)
Definition isSimpleCase (origin owner : H3Index) : bool :=
  let originIsPentagon := h3IsPentagon E origin in
  let ownerIsPentagon := h3IsPentagon E owner in
  let originFace := face (_h3ToFaceIjk E origin) in
  let ownerFace := face (_h3ToFaceIjk E owner) in
  negb ownerIsPentagon && negb originIsPentagon && (originFace =? ownerFace).

(** The vertex number for the owner cell. *)
Definition ownerVertexNumFor (origin : H3Index) (vertexNum : Z)
    (leftNeighbor rightNeighbor owner : H3Index) : option Z :=
  if negb (owner =? origin) then
    let ownerIsPentagon := h3IsPentagon E owner in
    if owner =? leftNeighbor then
      leftOwnerVertexNum (isSimpleCase origin owner) ownerIsPentagon
        owner origin vertexNum
    else if owner =? rightNeighbor then
      rightOwnerVertexNum (isSimpleCase origin owner) owner origin vertexNum
    else Some vertexNum
  else Some vertexNum.

(** [int rotations = 0; h3NeighborRotations(origin, dir, &rotations)]: the
    neighbor; the rotations are not read afterwards. *)
Definition neighborOf (origin : H3Index) (dir : Direction) : H3Index :=
  fst (h3NeighborRotations E origin dir 0).

(** [(vertexNum - 1 + originNumVerts) % originNumVerts]. *)
Definition previousVertexNum (origin : H3Index) (vertexNum : Z) : Z :=
  let originNumVerts :=
    if h3IsPentagon E origin then NUM_PENT_VERTS else NUM_HEX_VERTS in
  Z.rem (vertexNum - 1 + originNumVerts) originNumVerts.

(** Create the vertex index. *)
Definition vertexIndex (owner : H3Index) (ownerVertexNum : Z) : H3Index :=
  H3_SET_RESERVED_BITS (H3_SET_MODE owner H3_VERTEX_MODE) ownerVertexNum.

Definition getCellVertex (origin : H3Index) (vertexNum : Z)
    : option H3Index :=
  left <- directionForVertexNum origin vertexNum ;;
  if left =? INVALID_DIGIT then Some H3_NULL
  else
    let leftNeighbor := neighborOf origin left in
    right <- directionForVertexNum origin
               (previousVertexNum origin vertexNum) ;;
    if right =? INVALID_DIGIT then Some H3_NULL
    else
      let rightNeighbor := neighborOf origin right in
      let owner := lowestIndex origin leftNeighbor rightNeighbor in
      ownerVertexNum <-
        ownerVertexNumFor origin vertexNum leftNeighbor rightNeighbor owner ;;
      Some (vertexIndex owner ownerVertexNum).

(** ** [getCellVertexes] *)

(** The loop body for slots [i .. NUM_HEX_VERTS - 1], [n] slots to go. *)
Fixpoint cellVertexesFrom (origin : H3Index) (i : Z) (n : nat)
    : option (list H3Index) :=
  match n with
  | O => Some []
  | S n' =>
      v <- getCellVertex origin i ;;
      vs <- cellVertexesFrom origin (i + 1) n' ;;
      Some (v :: vs)
  end.

(** The first [NUM_HEX_VERTS] entries of the output array. *)
Definition getCellVertexes (origin : H3Index) : option (list H3Index) :=
  cellVertexesFrom origin 0 (Z.to_nat NUM_HEX_VERTS).

(** ** Conditions on a cell *)

(** Number of corners of a cell. *)
Definition numVerts (cell : H3Index) : Z :=
  if h3IsPentagon E cell then NUM_PENT_VERTS else NUM_HEX_VERTS.

(** [dirFaces.faces[digit - DIRECTION_INDEX_OFFSET]] of an assigned entry. *)
Definition faceAt (df : PentagonDirectionFaces) (digit : Direction) : Z :=
  nth (Z.to_nat (digit - DIRECTION_INDEX_OFFSET)) (faces df) 0.

(** [fijk.face] and [baseFijk.face] in [vertexRotations]. *)
Definition cellFace (cell : H3Index) : Z := face (_h3ToFaceIjk E cell).

Definition homeFaceOf (cell : H3Index) : Z :=
  face (_baseCellToFaceIjk E (h3GetBaseCell E cell)).

(** The rotation count [vertexRotations] starts from. *)
Definition baseRotation (cell : H3Index) : Z :=
  _baseCellToCCWrot60 E (h3GetBaseCell E cell) (face (_h3ToFaceIjk E cell)).

(** The loop over [pentagonDirectionFaces] assigns [dirFaces] for the base
    cell of [cell]. *)
Definition dirFacesAssigned (cell : H3Index) : Prop :=
  _isBaseCellPentagon E (h3GetBaseCell E cell) = true ->
  findDirFaces (h3GetBaseCell E cell) <> None.

(** [dirFaces] is assigned on every cell. *)
Definition pentagonRowsAssigned : Prop :=
  forall cell, dirFacesAssigned cell.

(** [directionForNeighbor] returns a value of the (unsigned) enumeration. *)
Definition directionsUnsigned : Prop :=
  forall a b, 0 <= directionForNeighbor E a b.

(** A direction [vertexNumForDirection] rejects for [cell]. *)
Definition rejectedDirection (cell : H3Index) (direction : Direction) : Prop :=
  direction = CENTER_DIGIT \/ direction >= INVALID_DIGIT
  \/ (h3IsPentagon E cell = true /\ direction = K_AXES_DIGIT).

(** ** Base cells *)

Definition baseCellNumbers : list Z :=
  map Z.of_nat (seq 0 (Z.to_nat NUM_BASE_CELLS)).

Definition pentagonBaseCells : list Z :=
  filter (_isBaseCellPentagon E) baseCellNumbers.

(** Modelled from the spec: [_isBaseCellPentagon] and the base cell data of
    baseCells.c are not under src/.  The spec's data model has base cell
    numbers 0-121, 12 of them pentagons, and [pentagonDirectionFaces] keyed
    by pentagon base cells. *)
Definition pentagonCensus : Prop :=
  Z.of_nat (length pentagonBaseCells) = NUM_PENTAGONS
  /\ Forall (fun e => _isBaseCellPentagon E (baseCell e) = true)
            pentagonDirectionFaces.

End Vertex.

(** ** An instance of the collaborators

    A small grid on which the statements below are evaluated: the index
    fields are read from their bits, a pentagon's descendants lie on the
    face of their leading digit, and a step in direction [d] moves the index
    by an odd multiple of the base cell unit, so that directions [d] and
    [7 - d] are opposite. *)
Module Sample.

Definition pentagons : list Z :=
  [4; 14; 24; 38; 49; 58; 63; 72; 83; 97; 107; 117].

Definition getBaseCell (h : H3Index) : Z := Z.land (Z.shiftr h 45) 127.

Definition getResolution (h : H3Index) : Z := Z.land (Z.shiftr h 52) 15.

Definition getIndexDigit (h : H3Index) (r : Z) : Z :=
  Z.land (Z.shiftr h ((15 - r) * 3)) 7.

Fixpoint leadingFrom (h : H3Index) (r : Z) (n : nat) : Direction :=
  match n with
  | O => CENTER_DIGIT
  | S n' =>
      if getIndexDigit h r =? 0 then leadingFrom h (r + 1) n'
      else getIndexDigit h r
  end.

Definition leadingNonZeroDigit (h : H3Index) : Direction :=
  leadingFrom h 1 (Z.to_nat (getResolution h)).

Definition isBaseCellPentagon (bc : Z) : bool :=
  existsb (Z.eqb bc) pentagons.

Definition isPentagon (h : H3Index) : bool :=
  isBaseCellPentagon (getBaseCell h) && (leadingNonZeroDigit h =? 0).

Definition onFace (f : Z) : FaceIJK :=
  {| face := f; coord := {| i := 0; j := 0; k := 0 |} |}.

Definition homeFace (bc : Z) : Z :=
  match findDirFaces bc with
  | Some df => nth 1 (faces df) 0
  | None => bc mod 20
  end.

(** The face of the leading digit for a descendant of a pentagon. *)
Definition digitFace (h : H3Index) : Z :=
  match findDirFaces (getBaseCell h) with
  | Some df =>
      if leadingNonZeroDigit h <? 2 then homeFace (getBaseCell h)
      else nth (Z.to_nat (leadingNonZeroDigit h - 2)) (faces df) 0
  | None => homeFace (getBaseCell h)
  end.

Definition neighbor (h : H3Index) (d : Direction) : H3Index :=
  uint64 (h + (2 * d - 7) * 2 ^ 45).

Definition directionTo (a b : H3Index) : Direction :=
  match find (fun d => neighbor a d =? b)
             (if isPentagon a then [2; 3; 4; 5; 6] else [1; 2; 3; 4; 5; 6]) with
  | Some d => d
  | None => INVALID_DIGIT
  end.

(** The instance, for a given projection of cells to faces. *)
Definition collaborators (faceOf : H3Index -> Z) : Collaborators :=
  {| _h3ToFaceIjk := fun h => onFace (faceOf h);
     h3GetBaseCell := getBaseCell;
     _h3LeadingNonZeroDigit := leadingNonZeroDigit;
     _baseCellToFaceIjk := fun bc => onFace (homeFace bc);
     _baseCellToCCWrot60 := fun bc f => (bc + f) mod 6;
     _isBaseCellPentagon := isBaseCellPentagon;
     _isBaseCellPolarPentagon := fun bc => (bc =? 4) || (bc =? 117);
     h3IsPentagon := isPentagon;
     h3NeighborRotations := fun h d rotations => (neighbor h d, rotations);
     directionForNeighbor := directionTo |}.

(** A cell of resolution 1 in base cell [bc] with first digit [d]. *)
Definition cell (bc d : Z) : H3Index :=
  Z.shiftl H3_HEXAGON_MODE H3_MODE_OFFSET + Z.shiftl 1 52
  + Z.shiftl bc 45 + Z.shiftl d 42 + (2 ^ 42 - 1).

(** The grid with a pentagon's descendants on the faces of their digits,
    a hexagon of base cell 20 and the pentagon of base cell 4. *)
Definition grid : Collaborators := collaborators digitFace.

Definition hexagon : H3Index := cell 20 3.

Definition pentagon : H3Index := cell 4 0.

End Sample.

(** ** [vertexToPoint]

    Modelled from the spec: [H3_GET_MODE] and [H3_GET_RESOLUTION] of
    h3Index.h are not under src/; the resolution is the field of bits 52-55
    of the H3 index format.  The boundary routines of faceijk.c are
    collaborators; a geographic coordinate is a value of their type. *)

Definition H3_GET_MODE (h3 : H3Index) : Z :=
  Z.shiftr (Z.land h3 H3_MODE_MASK) H3_MODE_OFFSET.

Definition H3_RES_OFFSET : Z := 52.
Definition H3_RES_MASK : Z := Z.shiftl 15 H3_RES_OFFSET.

Definition H3_GET_RESOLUTION (h3 : H3Index) : Z :=
  Z.shiftr (Z.land h3 H3_RES_MASK) H3_RES_OFFSET.

(** A cell boundary: [verts] holds the entries the routine has written. *)
Record GeoBoundary (GeoCoord : Type) : Type := {
  boundaryNumVerts : Z;
  verts : list GeoCoord
}.

Arguments boundaryNumVerts {GeoCoord} _.
Arguments verts {GeoCoord} _.

Record BoundaryRoutines : Type := {
  GeoCoord : Type;
  (** [_faceIjkPentToGeoBoundary(&fijk, res, start, length, &gb)]. *)
  _faceIjkPentToGeoBoundary : FaceIJK -> Z -> Z -> Z -> GeoBoundary GeoCoord;
  (** [_faceIjkToGeoBoundary(&fijk, res, start, length, &gb)]. *)
  _faceIjkToGeoBoundary : FaceIJK -> Z -> Z -> Z -> GeoBoundary GeoCoord
}.

Section VertexPoint.

Variable E : Collaborators.
Variable G : BoundaryRoutines.

(** The owner held by a vertex index: the mode set back to a cell's, the
    reserved bits cleared. *)
Definition vertexOwner (vertex : H3Index) : H3Index :=
  H3_SET_RESERVED_BITS (H3_SET_MODE vertex H3_HEXAGON_MODE) 0.

(** The single vertex of the boundary asked for a cell and a vertex
    number. *)
Definition boundaryVertex (owner : H3Index) (vertexNum : Z)
    : GeoBoundary (GeoCoord G) :=
  let fijk := _h3ToFaceIjk E owner in
  let res := H3_GET_RESOLUTION owner in
  if h3IsPentagon E owner
  then _faceIjkPentToGeoBoundary G fijk res vertexNum 1
  else _faceIjkToGeoBoundary G fijk res vertexNum 1.

Definition vertexToPoint (vertex : H3Index) : option (GeoCoord G) :=
  let vertexNum := H3_GET_RESERVED_BITS vertex in
  let owner := vertexOwner vertex in
  let gb := boundaryVertex owner vertexNum in
  index (verts gb) 0.

End VertexPoint.

(** An index in cell mode with cleared reserved bits, as a 64-bit word. *)
Definition isCellIndex (h : H3Index) : Prop :=
  0 <= h < 2 ^ 64
  /\ H3_GET_MODE h = H3_HEXAGON_MODE
  /\ H3_GET_RESERVED_BITS h = 0.

(** Boundary routines of the sample grid: a coordinate records the face,
    the resolution and the vertex number it was asked for, and whether the
    pentagon routine produced it. *)
Module SampleBoundary.

Definition routine (pent : bool) (fijk : FaceIJK) (res start length : Z)
    : GeoBoundary (bool * Z * Z * Z) :=
  {| boundaryNumVerts := length;
     verts := map (fun n => (pent, face fijk, res, start + Z.of_nat n))
                (seq 0 (Z.to_nat length)) |}.

Definition routines : BoundaryRoutines :=
  {| GeoCoord := bool * Z * Z * Z;
     _faceIjkPentToGeoBoundary := routine true;
     _faceIjkToGeoBoundary := routine false |}.

End SampleBoundary.

(** Two more grids: one in which every cell lies on face 0, and one whose
    [directionForNeighbor] finds no direction. *)
Module SampleVariants.

Definition flat : Collaborators := Sample.collaborators (fun _ => 0).

Definition lost : Collaborators :=
  {| _h3ToFaceIjk := _h3ToFaceIjk Sample.grid;
     h3GetBaseCell := h3GetBaseCell Sample.grid;
     _h3LeadingNonZeroDigit := _h3LeadingNonZeroDigit Sample.grid;
     _baseCellToFaceIjk := _baseCellToFaceIjk Sample.grid;
     _baseCellToCCWrot60 := _baseCellToCCWrot60 Sample.grid;
     _isBaseCellPentagon := _isBaseCellPentagon Sample.grid;
     _isBaseCellPolarPentagon := _isBaseCellPolarPentagon Sample.grid;
     h3IsPentagon := h3IsPentagon Sample.grid;
     h3NeighborRotations := h3NeighborRotations Sample.grid;
     directionForNeighbor := fun _ _ => INVALID_DIGIT |}.

End SampleVariants.

(** * Properties *)

(** Case analysis on a rotation count, a digit or a vertex number. *)
Ltac enumerate n :=
  let H := fresh in
  assert (H : n = 0 \/ n = 1 \/ n = 2 \/ n = 3 \/ n = 4 \/ n = 5 \/ n = 6)
    by lia;
  repeat (destruct H as [H | H]; [subst n | ]); [ .. | subst n].

(** ** Rotation counts *)

Section Rotations.

Variable E : Collaborators.

Lemma findDirFaces_In (bc : Z) (df : PentagonDirectionFaces) :
  findDirFaces bc = Some df ->
  In df pentagonDirectionFaces /\ baseCell df = bc.
Proof.
  unfold findDirFaces. intros H.
  apply find_some in H. destruct H as [Hin Heq].
  split; [exact Hin | now apply Z.eqb_eq].
Qed.

Lemma pentagonDirectionFaces_length (df : PentagonDirectionFaces) :
  In df pentagonDirectionFaces -> length (faces df) = 5%nat.
Proof.
  assert (H : forallb (fun e => Nat.eqb (length (faces e)) 5)
                pentagonDirectionFaces = true) by reflexivity.
  rewrite forallb_forall in H.
  intros Hin. apply Nat.eqb_eq. now apply H.
Qed.

Lemma five_faces (df : PentagonDirectionFaces) :
  length (faces df) = 5%nat ->
  exists a b c d e, faces df = [a; b; c; d; e].
Proof.
  destruct (faces df) as [|a [|b [|c [|d [|e [|x l]]]]]]; try discriminate.
  intros _. now exists a, b, c, d, e.
Qed.

Lemma dirFace_assigned (df : PentagonDirectionFaces) (digit : Direction) :
  In df pentagonDirectionFaces ->
  digit = JK_AXES_DIGIT \/ digit = IK_AXES_DIGIT ->
  dirFace (Some df) digit = Some (faceAt df digit).
Proof.
  intros Hin Hd. apply pentagonDirectionFaces_length in Hin.
  destruct (five_faces df Hin) as (a & b & c & d & e & Hf).
  unfold dirFace, faceAt, bind. rewrite Hf.
  destruct Hd as [-> | ->]; reflexivity.
Qed.

Lemma onDirFace_assigned (f : Z) (df : PentagonDirectionFaces)
    (digit : Direction) :
  In df pentagonDirectionFaces ->
  digit = JK_AXES_DIGIT \/ digit = IK_AXES_DIGIT ->
  onDirFace f (Some df) digit = Some (f =? faceAt df digit).
Proof.
  intros Hin Hd. unfold onDirFace.
  now rewrite (dirFace_assigned df digit Hin Hd).
Qed.

Lemma polarOrIKRotation_assigned (bc f home : Z)
    (df : PentagonDirectionFaces) (r : Z) :
  In df pentagonDirectionFaces ->
  polarOrIKRotation E bc f home (Some df) r =
  Some (if negb (f =? home)
           && (_isBaseCellPolarPentagon E bc || (f =? faceAt df IK_AXES_DIGIT))
        then Z.rem (r + 1) 6 else r).
Proof.
  intros Hin. unfold polarOrIKRotation.
  rewrite (onDirFace_assigned f df IK_AXES_DIGIT Hin) by now right.
  destruct (f =? home), (_isBaseCellPolarPentagon E bc),
    (f =? faceAt df IK_AXES_DIGIT); reflexivity.
Qed.

Lemma deletedSubsequenceRotation_assigned (lead : Direction) (f : Z)
    (df : PentagonDirectionFaces) (r : Z) :
  In df pentagonDirectionFaces ->
  deletedSubsequenceRotation lead f (Some df) r =
  Some (if (lead =? JK_AXES_DIGIT) && (f =? faceAt df IK_AXES_DIGIT)
        then Z.rem (r + 5) 6
        else if (lead =? IK_AXES_DIGIT) && (f =? faceAt df JK_AXES_DIGIT)
        then Z.rem (r + 1) 6
        else r).
Proof.
  intros Hin. unfold deletedSubsequenceRotation.
  rewrite (onDirFace_assigned f df IK_AXES_DIGIT Hin) by now right.
  rewrite (onDirFace_assigned f df JK_AXES_DIGIT Hin) by now left.
  destruct (lead =? JK_AXES_DIGIT), (f =? faceAt df IK_AXES_DIGIT),
    (lead =? IK_AXES_DIGIT), (f =? faceAt df JK_AXES_DIGIT); reflexivity.
Qed.

(** The remainders of the two blocks, on rotation counts. *)
Lemma rem6_succ (r : Z) : -1 <= r -> Z.rem (r + 1) 6 = (r + 1) mod 6.
Proof. intros H. apply Z.rem_mod_nonneg; lia. Qed.

Lemma rem6_pred (r : Z) : -1 <= r -> Z.rem (r + 5) 6 = (r - 1) mod 6.
Proof.
  intros H. rewrite Z.rem_mod_nonneg by lia.
  replace (r + 5) with (r - 1 + 1 * 6) by lia.
  now rewrite Z.mod_add by lia.
Qed.

(** Each of the two blocks keeps a rotation count in 0..5. *)
Lemma polarOrIKRotation_range (bc f home : Z)
    (dirFaces : option PentagonDirectionFaces) (r r1 : Z) :
  0 <= r <= 5 ->
  polarOrIKRotation E bc f home dirFaces r = Some r1 -> 0 <= r1 <= 5.
Proof.
  intros Hr. unfold polarOrIKRotation, bind.
  destruct (andC _ _) as [[|]|]; intros H; inversion H; subst; try lia.
  rewrite rem6_succ by lia. pose proof (Z.mod_pos_bound (r + 1) 6). lia.
Qed.

Lemma deletedSubsequenceRotation_range (lead : Direction) (f : Z)
    (dirFaces : option PentagonDirectionFaces) (r r2 : Z) :
  0 <= r <= 5 ->
  deletedSubsequenceRotation lead f dirFaces r = Some r2 -> 0 <= r2 <= 5.
Proof.
  intros Hr. unfold deletedSubsequenceRotation, bind.
  destruct (andC _ _) as [[|]|]; try discriminate.
  - intros H; inversion H; subst. rewrite rem6_pred by lia.
    pose proof (Z.mod_pos_bound (r - 1) 6). lia.
  - destruct (andC _ _) as [[|]|]; intros H; inversion H; subst; try lia.
    rewrite rem6_succ by lia. pose proof (Z.mod_pos_bound (r + 1) 6). lia.
Qed.

Lemma vertexRotations_range (cell : H3Index) (adjust : bool) (r : Z) :
  0 <= baseRotation E cell <= 5 ->
  vertexRotations E cell adjust = Some r -> 0 <= r <= 5.
Proof.
  unfold baseRotation, vertexRotations. intros Hb.
  destruct (adjust && _).
  - unfold bind at 1.
    destruct (polarOrIKRotation _ _ _ _ _ _) as [r1|] eqn:H1; try discriminate.
    apply polarOrIKRotation_range in H1; [|exact Hb].
    now apply deletedSubsequenceRotation_range.
  - intros H; inversion H; subst. exact Hb.
Qed.

Lemma vertexRotations_defined (cell : H3Index) (adjust : bool) :
  dirFacesAssigned E cell ->
  exists r, vertexRotations E cell adjust = Some r.
Proof.
  unfold dirFacesAssigned, vertexRotations. intros Ha.
  destruct adjust; simpl andb; [|eauto].
  destruct (_isBaseCellPentagon E _); [|eauto].
  destruct (findDirFaces _) as [df|] eqn:Hf; [|now destruct Ha].
  apply findDirFaces_In in Hf. destruct Hf as [Hin _].
  rewrite (polarOrIKRotation_assigned _ _ _ df _ Hin). unfold bind.
  rewrite (deletedSubsequenceRotation_assigned _ _ df _ Hin). eauto.
Qed.

Lemma vertexRotations_rotation (cell : H3Index) :
  0 <= baseRotation E cell <= 5 ->
  dirFacesAssigned E cell ->
  exists r, vertexRotations E cell true = Some r /\ 0 <= r <= 5.
Proof.
  intros Hb Ha. destruct (vertexRotations_defined cell true Ha) as [r Hr].
  exists r. split; [exact Hr|]. now apply (vertexRotations_range cell true).
Qed.

Lemma vertexRotations_pentagon (cell : H3Index)
    (df : PentagonDirectionFaces) :
  _isBaseCellPentagon E (h3GetBaseCell E cell) = true ->
  findDirFaces (h3GetBaseCell E cell) = Some df ->
  vertexRotations E cell true =
  (r1 <- polarOrIKRotation E (h3GetBaseCell E cell) (cellFace E cell)
           (homeFaceOf E cell) (Some df) (baseRotation E cell) ;;
   deletedSubsequenceRotation (_h3LeadingNonZeroDigit E cell)
     (cellFace E cell) (Some df) r1).
Proof.
  intros Hp Hf. unfold vertexRotations. rewrite Hp, Hf. reflexivity.
Qed.

(** *** The pentagon rows *)

Lemma baseCellNumbers_In (bc : Z) :
  In bc baseCellNumbers <-> 0 <= bc < NUM_BASE_CELLS.
Proof.
  unfold baseCellNumbers, NUM_BASE_CELLS. rewrite in_map_iff. split.
  - intros [n [Hn Hin]]. apply in_seq in Hin. lia.
  - intros H. exists (Z.to_nat bc). split; [lia|]. apply in_seq. lia.
Qed.

Lemma pentagonDirectionFaces_keys_NoDup :
  NoDup (map baseCell pentagonDirectionFaces).
Proof.
  repeat (apply NoDup_cons; [cbv; intuition discriminate|]).
  apply NoDup_nil.
Qed.

Lemma pentagonDirectionFaces_keys_range (df : PentagonDirectionFaces) :
  In df pentagonDirectionFaces -> 0 <= baseCell df < NUM_BASE_CELLS.
Proof.
  assert (H : forallb (fun e => (0 <=? baseCell e)
                                && (baseCell e <? NUM_BASE_CELLS))
                pentagonDirectionFaces = true) by reflexivity.
  rewrite forallb_forall in H. intros Hin. specialize (H df Hin).
  apply andb_prop in H. destruct H as [H0 H1].
  apply Z.leb_le in H0. apply Z.ltb_lt in H1. lia.
Qed.

Lemma findDirFaces_key (bc : Z) :
  In bc (map baseCell pentagonDirectionFaces) ->
  exists df, findDirFaces bc = Some df.
Proof.
  intros Hin. apply in_map_iff in Hin. destruct Hin as [e [He Hin]].
  unfold findDirFaces.
  destruct (find _ pentagonDirectionFaces) as [df|] eqn:Hf; [eauto|].
  pose proof (find_none _ _ Hf e Hin) as Hn. cbv beta in Hn.
  rewrite He, Z.eqb_refl in Hn. discriminate.
Qed.

(** C10. When 12 of the base cells 0..121 are pentagons and the rows of
    [pentagonDirectionFaces] are keyed by pentagon base cells, every
    pentagon base cell has a row: the loop of [vertexRotations] assigns
    [dirFaces] the row of that base cell, and [vertexRotations] with the
    pentagon adjustment is defined on every cell of that base cell. *)
Theorem pentagon_base_cells_have_rows (bc : Z) :
  pentagonCensus E ->
  0 <= bc < NUM_BASE_CELLS ->
  _isBaseCellPentagon E bc = true ->
  (exists df, findDirFaces bc = Some df
              /\ In df pentagonDirectionFaces /\ baseCell df = bc)
  /\ forall cell, h3GetBaseCell E cell = bc ->
       exists r, vertexRotations E cell true = Some r.
Proof.
  intros [Hcount Hkeys] Hrange Hp.
  assert (Hincl : incl (map baseCell pentagonDirectionFaces)
                    (pentagonBaseCells E)).
  { intros key Hin. apply in_map_iff in Hin. destruct Hin as [e [He Hin]].
    subst key. unfold pentagonBaseCells. apply filter_In. split.
    - apply baseCellNumbers_In. now apply pentagonDirectionFaces_keys_range.
    - rewrite Forall_forall in Hkeys. now apply Hkeys. }
  assert (Hback : incl (pentagonBaseCells E)
                    (map baseCell pentagonDirectionFaces)).
  { apply NoDup_length_incl.
    - exact pentagonDirectionFaces_keys_NoDup.
    - unfold NUM_PENTAGONS in Hcount.
      change (length (map baseCell pentagonDirectionFaces)) with 12%nat. lia.
    - exact Hincl. }
  assert (Hin : In bc (pentagonBaseCells E)).
  { unfold pentagonBaseCells. apply filter_In. split; [|exact Hp].
    now apply baseCellNumbers_In. }
  destruct (findDirFaces_key bc (Hback bc Hin)) as [df Hf].
  split.
  - exists df. destruct (findDirFaces_In _ _ Hf) as [Hdf Hbc]. now repeat split.
  - intros cell Hcell. apply vertexRotations_defined.
    unfold dirFacesAssigned. rewrite Hcell, Hf. discriminate.
Qed.

(** C7. With the pentagon adjustment, on a cell whose base cell is a
    pentagon: when the cell's face differs from the home face of the base
    cell and the base cell is a polar pentagon or the face is the IK entry
    of the base cell's [pentagonDirectionFaces] row, the first block turns
    the base rotation count [r] into [(r + 1) mod 6]; this is the count the
    deleted-subsequence block starts from (and the result itself when the
    leading digit is neither JK nor IK), and the result of
    [vertexRotations] lies in 0..5. *)
Theorem polar_or_ik_face_adds_one (cell : H3Index)
    (df : PentagonDirectionFaces) :
  _isBaseCellPentagon E (h3GetBaseCell E cell) = true ->
  findDirFaces (h3GetBaseCell E cell) = Some df ->
  0 <= baseRotation E cell <= 5 ->
  cellFace E cell <> homeFaceOf E cell ->
  _isBaseCellPolarPentagon E (h3GetBaseCell E cell) = true
  \/ dirFace (Some df) IK_AXES_DIGIT = Some (cellFace E cell) ->
  polarOrIKRotation E (h3GetBaseCell E cell) (cellFace E cell)
    (homeFaceOf E cell) (Some df) (baseRotation E cell)
  = Some ((baseRotation E cell + 1) mod 6)
  /\ vertexRotations E cell true
     = deletedSubsequenceRotation (_h3LeadingNonZeroDigit E cell)
         (cellFace E cell) (Some df) ((baseRotation E cell + 1) mod 6)
  /\ (_h3LeadingNonZeroDigit E cell <> JK_AXES_DIGIT ->
      _h3LeadingNonZeroDigit E cell <> IK_AXES_DIGIT ->
      vertexRotations E cell true = Some ((baseRotation E cell + 1) mod 6))
  /\ exists r, vertexRotations E cell true = Some r /\ 0 <= r <= 5.
Proof.
  intros Hp Hf Hb Hface Hside.
  destruct (findDirFaces_In _ _ Hf) as [Hin _].
  assert (H1 : polarOrIKRotation E (h3GetBaseCell E cell) (cellFace E cell)
                 (homeFaceOf E cell) (Some df) (baseRotation E cell)
               = Some ((baseRotation E cell + 1) mod 6)).
  { rewrite (polarOrIKRotation_assigned _ _ _ df _ Hin).
    apply Z.eqb_neq in Hface. rewrite Hface. simpl negb.
    assert (Hc : _isBaseCellPolarPentagon E (h3GetBaseCell E cell)
                 || (cellFace E cell =? faceAt df IK_AXES_DIGIT) = true).
    { destruct Hside as [Hpolar | Hik].
      - now rewrite Hpolar.
      - rewrite (dirFace_assigned df IK_AXES_DIGIT Hin) in Hik by now right.
        inversion Hik as [Heq]. rewrite Heq at 1. rewrite Heq at 1.
        rewrite Z.eqb_refl. apply orb_true_r. }
    rewrite Hc. simpl andb. cbv iota. now rewrite rem6_succ by lia. }
  assert (H2 : vertexRotations E cell true
               = deletedSubsequenceRotation (_h3LeadingNonZeroDigit E cell)
                   (cellFace E cell) (Some df)
                   ((baseRotation E cell + 1) mod 6)).
  { rewrite (vertexRotations_pentagon cell df Hp Hf), H1. reflexivity. }
  split; [exact H1|]. split; [exact H2|]. split.
  - intros Hjk Hik. rewrite H2.
    rewrite (deletedSubsequenceRotation_assigned _ _ df _ Hin).
    apply Z.eqb_neq in Hjk, Hik. now rewrite Hjk, Hik.
  - apply vertexRotations_rotation; [exact Hb|].
    unfold dirFacesAssigned. intros _. now rewrite Hf.
Qed.

(** C8. With the pentagon adjustment, on a cell whose base cell is a
    pentagon, let [r1] be the rotation count after the first block.  When
    the leading digit of the cell is the JK digit and the cell's face is the
    IK entry of the base cell's row, [vertexRotations] returns
    [(r1 - 1) mod 6]; when the leading digit is the IK digit and the face is
    the JK entry, it returns [(r1 + 1) mod 6]. *)
Theorem deleted_subsequence_rotation (cell : H3Index)
    (df : PentagonDirectionFaces) :
  _isBaseCellPentagon E (h3GetBaseCell E cell) = true ->
  findDirFaces (h3GetBaseCell E cell) = Some df ->
  0 <= baseRotation E cell <= 5 ->
  exists r1,
    polarOrIKRotation E (h3GetBaseCell E cell) (cellFace E cell)
      (homeFaceOf E cell) (Some df) (baseRotation E cell) = Some r1
    /\ 0 <= r1 <= 5
    /\ (_h3LeadingNonZeroDigit E cell = JK_AXES_DIGIT ->
        dirFace (Some df) IK_AXES_DIGIT = Some (cellFace E cell) ->
        vertexRotations E cell true = Some ((r1 - 1) mod 6))
    /\ (_h3LeadingNonZeroDigit E cell = IK_AXES_DIGIT ->
        dirFace (Some df) JK_AXES_DIGIT = Some (cellFace E cell) ->
        vertexRotations E cell true = Some ((r1 + 1) mod 6)).
Proof.
  intros Hp Hf Hb.
  destruct (findDirFaces_In _ _ Hf) as [Hin _].
  destruct (polarOrIKRotation E (h3GetBaseCell E cell) (cellFace E cell)
              (homeFaceOf E cell) (Some df) (baseRotation E cell))
    as [r1|] eqn:H1.
  2: { rewrite (polarOrIKRotation_assigned _ _ _ df _ Hin) in H1.
       discriminate. }
  assert (Hr1 : 0 <= r1 <= 5) by
    (eapply polarOrIKRotation_range; [exact Hb | exact H1]).
  exists r1. split; [reflexivity|]. split; [exact Hr1|].
  rewrite (vertexRotations_pentagon cell df Hp Hf), H1. unfold bind.
  rewrite (deletedSubsequenceRotation_assigned _ _ df _ Hin).
  split.
  - intros Hlead Hik.
    rewrite (dirFace_assigned df IK_AXES_DIGIT Hin) in Hik by now right.
    inversion Hik as [Heq]. rewrite Hlead, Heq, !Z.eqb_refl. simpl andb.
    cbv iota. now rewrite rem6_pred by lia.
  - intros Hlead Hjk.
    rewrite (dirFace_assigned df JK_AXES_DIGIT Hin) in Hjk by now left.
    inversion Hjk as [Heq]. rewrite Hlead, Heq, !Z.eqb_refl.
    replace (IK_AXES_DIGIT =? JK_AXES_DIGIT) with false by reflexivity.
    simpl andb. cbv iota. now rewrite rem6_succ by lia.
Qed.

End Rotations.

(** ** Directions and vertex numbers *)

Section DirectionVertex.

Variable E : Collaborators.

Lemma rejectedDirection_invalid (cell : H3Index) (direction : Direction) :
  rejectedDirection E cell direction ->
  vertexNumForDirection E cell direction = Some INVALID_VERTEX_NUM.
Proof.
  unfold rejectedDirection, vertexNumForDirection.
  intros [Hc | [Hr | [Hp Hk]]].
  - subst direction. reflexivity.
  - replace (direction >=? INVALID_DIGIT) with true
      by (symmetry; rewrite Z.geb_leb; apply Z.leb_le; lia).
    now rewrite orb_true_r.
  - subst direction. rewrite Hp. reflexivity.
Qed.

(** C1. On a cell whose base rotation is a rotation count and whose
    [dirFaces] row is assigned, for every vertex number [v] of the cell
    (0..5 for a hexagon, 0..4 for a pentagon) [directionForVertexNum]
    returns a direction, and [vertexNumForDirection] maps it back to [v]. *)
Theorem vertexNum_direction_inverse (cell : H3Index) (v : Z) :
  0 <= baseRotation E cell <= 5 ->
  dirFacesAssigned E cell ->
  0 <= v < numVerts E cell ->
  exists d, directionForVertexNum E cell v = Some d
            /\ d <> INVALID_DIGIT
            /\ vertexNumForDirection E cell d = Some v.
Proof.
  intros Hb Ha Hv.
  destruct (vertexRotations_rotation E cell Hb Ha) as [r [Hr Hrange]].
  unfold numVerts in Hv.
  unfold directionForVertexNum, vertexNumForDirection.
  rewrite Hr. clear Hr Hb Ha.
  destruct (h3IsPentagon E cell); unfold NUM_PENT_VERTS, NUM_HEX_VERTS in Hv;
    enumerate v; try lia; enumerate r; try lia;
    (eexists; split; [reflexivity | split; [discriminate | reflexivity]]).
Qed.

(** C9. For a direction of the enumeration's (unsigned) type, on a cell
    whose base rotation is a rotation count and whose [dirFaces] row is
    assigned, [vertexNumForDirection] returns a value; the value is
    [INVALID_VERTEX_NUM] exactly when the direction is the center digit, at
    or beyond [INVALID_DIGIT], or the K digit on a pentagon, and it is a
    vertex number of the cell otherwise. *)
Theorem vertexNumForDirection_invalid_iff (cell : H3Index)
    (direction : Direction) :
  0 <= direction ->
  0 <= baseRotation E cell <= 5 ->
  dirFacesAssigned E cell ->
  exists n, vertexNumForDirection E cell direction = Some n
            /\ (n = INVALID_VERTEX_NUM <-> rejectedDirection E cell direction)
            /\ (n <> INVALID_VERTEX_NUM -> 0 <= n < numVerts E cell).
Proof.
  intros Hd Hb Ha.
  destruct (Z_lt_ge_dec direction INVALID_DIGIT) as [Hlt | Hge].
  2: { exists INVALID_VERTEX_NUM. split; [|split].
       - apply rejectedDirection_invalid. right. left. exact Hge.
       - split; [intros _; right; left; exact Hge | reflexivity].
       - intros Hn. now destruct Hn. }
  destruct (vertexRotations_rotation E cell Hb Ha) as [r [Hr Hrange]].
  unfold rejectedDirection, numVerts, vertexNumForDirection.
  rewrite Hr. clear Hr Hb Ha.
  unfold INVALID_DIGIT in Hlt.
  destruct (h3IsPentagon E cell); enumerate direction; try lia;
    try (exists INVALID_VERTEX_NUM; split; [reflexivity|]; split;
         [ split; [intros _; cbv; intuition | reflexivity]
         | intros Hn; now destruct Hn ]);
    enumerate r; try lia;
    (eexists; split; [reflexivity|]; split;
     [ split; [discriminate | cbv; intuition discriminate]
     | intros _; cbv; intuition discriminate ]).
Qed.

End DirectionVertex.

(** ** The vertex index *)

Lemma small_bits (v n : Z) : 0 <= v < 8 -> 3 <= n -> Z.testbit v n = false.
Proof.
  intros Hv Hn. destruct (Z.eq_dec v 0) as [->|Hz]; [apply Z.bits_0|].
  apply Z.bits_above_log2; [lia|].
  apply Z.lt_le_trans with 3; [|exact Hn].
  apply Z.log2_lt_pow2; lia.
Qed.

Lemma reserved_get_set (h v : Z) :
  0 <= v < 8 -> H3_GET_RESERVED_BITS (H3_SET_RESERVED_BITS h v) = v.
Proof.
  intros Hv. unfold H3_GET_RESERVED_BITS, H3_SET_RESERVED_BITS, uint64.
  rewrite (Z.mod_small v) by lia.
  assert (Hs : Z.shiftl v H3_RESERVED_OFFSET mod 2 ^ 64
               = Z.shiftl v H3_RESERVED_OFFSET).
  { apply Z.mod_small. unfold H3_RESERVED_OFFSET.
    rewrite Z.shiftl_mul_pow2 by lia. lia. }
  rewrite Hs.
  apply Z.bits_inj'. intros n Hn.
  rewrite Z.shiftr_spec by exact Hn.
  rewrite Z.land_spec, Z.lor_spec, Z.land_spec.
  unfold H3_RESERVED_MASK_NEGATIVE, H3_RESERVED_MASK, uint64,
    H3_RESERVED_OFFSET.
  rewrite !Z.shiftl_spec by lia.
  replace (n + 56 - 56) with n by lia.
  destruct (Z_lt_ge_dec n 3) as [Hlt | Hge].
  - rewrite Z.mod_pow2_bits_low by lia.
    rewrite Z.lnot_spec by lia. rewrite Z.shiftl_spec by lia.
    replace (n + 56 - 56) with n by lia.
    assert (H7 : Z.testbit 7 n = true).
    { assert (Hc : n = 0 \/ n = 1 \/ n = 2) by lia.
      destruct Hc as [-> | [-> | ->]]; reflexivity. }
    rewrite H7. simpl negb. rewrite andb_false_r, andb_true_r. reflexivity.
  - rewrite (small_bits 7 n) by lia. rewrite (small_bits v n) by lia.
    apply andb_false_r.
Qed.

Lemma vertexIndex_reserved (owner : H3Index) (ownerVertexNum : Z) :
  0 <= ownerVertexNum < 8 ->
  H3_GET_RESERVED_BITS (vertexIndex owner ownerVertexNum) = ownerVertexNum.
Proof. intros H. unfold vertexIndex. now apply reserved_get_set. Qed.

(** Bit 61, set by [H3_VERTEX_MODE], survives the reserved bits. *)
Lemma vertexIndex_mode_bit (owner : H3Index) (ownerVertexNum : Z) :
  Z.testbit (vertexIndex owner ownerVertexNum) 61 = true.
Proof.
  unfold vertexIndex, H3_SET_RESERVED_BITS, H3_SET_MODE.
  rewrite Z.lor_spec, Z.land_spec, Z.lor_spec.
  replace (Z.testbit (uint64 (Z.shiftl (uint64 H3_VERTEX_MODE)
                                 H3_MODE_OFFSET)) 61)
    with true by reflexivity.
  replace (Z.testbit H3_RESERVED_MASK_NEGATIVE 61) with true by reflexivity.
  now rewrite orb_true_r.
Qed.

Lemma vertexIndex_not_null (owner : H3Index) (ownerVertexNum : Z) :
  vertexIndex owner ownerVertexNum <> H3_NULL.
Proof.
  intros H. pose proof (vertexIndex_mode_bit owner ownerVertexNum) as Hb.
  rewrite H in Hb. discriminate.
Qed.

(** ** Owners and their vertex numbers *)

Section CellVertex.

Variable E : Collaborators.

Lemma lowestIndex_min (origin leftNeighbor rightNeighbor : H3Index) :
  lowestIndex origin leftNeighbor rightNeighbor
  = Z.min origin (Z.min leftNeighbor rightNeighbor).
Proof.
  unfold lowestIndex.
  destruct (Z.ltb_spec leftNeighbor origin);
    destruct (Z.ltb_spec rightNeighbor leftNeighbor);
    destruct (Z.ltb_spec rightNeighbor origin); lia.
Qed.

Lemma directionForVertexNum_defined (cell : H3Index) (v : Z) :
  0 <= baseRotation E cell <= 5 ->
  dirFacesAssigned E cell ->
  0 <= v < numVerts E cell ->
  exists d, directionForVertexNum E cell v = Some d /\ d <> INVALID_DIGIT.
Proof.
  intros Hb Ha Hv.
  destruct (vertexRotations_rotation E cell Hb Ha) as [r [Hr Hrange]].
  unfold numVerts in Hv. unfold directionForVertexNum.
  rewrite Hr. clear Hr Hb Ha.
  destruct (h3IsPentagon E cell); unfold NUM_PENT_VERTS, NUM_HEX_VERTS in Hv;
    enumerate v; try lia; enumerate r; try lia;
    (eexists; split; [reflexivity | discriminate]).
Qed.

Lemma directionForVertexNum_outside (cell : H3Index) (v : Z) :
  v < 0 \/ numVerts E cell <= v ->
  directionForVertexNum E cell v = Some INVALID_DIGIT.
Proof.
  unfold numVerts, directionForVertexNum. intros Hv.
  replace ((v <? 0)
           || (v >? (if h3IsPentagon E cell then NUM_PENT_VERTS
                     else NUM_HEX_VERTS) - 1)) with true; [reflexivity|].
  symmetry. apply orb_true_iff. destruct Hv as [Hv | Hv].
  - left. apply Z.ltb_lt. exact Hv.
  - right. rewrite Z.gtb_ltb. apply Z.ltb_lt. lia.
Qed.

Lemma previousVertexNum_range (cell : H3Index) (v : Z) :
  0 <= v < numVerts E cell ->
  0 <= previousVertexNum E cell v < numVerts E cell.
Proof.
  unfold numVerts, previousVertexNum.
  destruct (h3IsPentagon E cell); unfold NUM_PENT_VERTS, NUM_HEX_VERTS;
    intros Hv; enumerate v; try lia; cbv; intuition discriminate.
Qed.

Lemma vertexNumForDirection_defined (cell : H3Index) (direction : Direction) :
  dirFacesAssigned E cell ->
  0 <= direction ->
  exists n, vertexNumForDirection E cell direction = Some n.
Proof.
  intros Ha Hd.
  destruct (Z_lt_ge_dec direction INVALID_DIGIT) as [Hlt | Hge].
  2: { exists INVALID_VERTEX_NUM. apply rejectedDirection_invalid.
       right. left. exact Hge. }
  destruct (vertexRotations_defined E cell true Ha) as [r Hr].
  unfold vertexNumForDirection. rewrite Hr. unfold INVALID_DIGIT in Hlt.
  destruct (h3IsPentagon E cell); enumerate direction; try lia;
    eexists; reflexivity.
Qed.

(** On a pentagon the vertex number of a direction stays below 5. *)
Lemma vertexNumForDirection_pentagon (cell : H3Index)
    (direction : Direction) (n : Z) :
  h3IsPentagon E cell = true ->
  vertexNumForDirection E cell direction = Some n ->
  n < NUM_PENT_VERTS.
Proof.
  intros Hp. unfold vertexNumForDirection. rewrite Hp.
  destruct (_ || _).
  - intros H. inversion H. reflexivity.
  - unfold bind. destruct (vertexRotations E cell true) as [r|];
      [|discriminate].
    destruct (index directionToVertexNumPent direction) as [m|];
      [|discriminate].
    intros H. inversion H.
    pose proof (Z.rem_bound_abs (m + NUM_PENT_VERTS - r) NUM_PENT_VERTS).
    unfold NUM_PENT_VERTS in *. lia.
Qed.

Lemma neighborVertex_defined (v side : Z) :
  0 <= v < NUM_HEX_VERTS -> side = 0 \/ side = 1 ->
  exists n, neighborVertex v side = Some n /\ 0 <= n < NUM_HEX_VERTS.
Proof.
  unfold NUM_HEX_VERTS. intros Hv Hs.
  enumerate v; try lia; destruct Hs as [-> | ->];
    (eexists; split; [reflexivity | lia]).
Qed.

(** What [neighborVertexes] holds: the left column is the vertex after the
    first vertex of the opposite edge, the right column the first vertex of
    the edge opposite to the previous one. *)
Lemma neighborVertexes_opposite_edge (v : Z) :
  0 <= v < NUM_HEX_VERTS ->
  neighborVertex v 0
  = Some (if Z.rem (v + 3) NUM_HEX_VERTS + 1 =? NUM_HEX_VERTS then 0
          else Z.rem (v + 3) NUM_HEX_VERTS + 1)
  /\ neighborVertex v 1
     = Some (Z.rem (Z.rem (v - 1 + NUM_HEX_VERTS) NUM_HEX_VERTS + 3)
               NUM_HEX_VERTS).
Proof.
  unfold NUM_HEX_VERTS. intros Hv.
  enumerate v; try lia; split; reflexivity.
Qed.

Lemma getCellVertex_unfold (origin : H3Index) (v : Z)
    (left right : Direction) :
  directionForVertexNum E origin v = Some left ->
  left <> INVALID_DIGIT ->
  directionForVertexNum E origin (previousVertexNum E origin v) = Some right ->
  right <> INVALID_DIGIT ->
  getCellVertex E origin v =
  (ownerVertexNum <-
     ownerVertexNumFor E origin v (neighborOf E origin left)
       (neighborOf E origin right)
       (lowestIndex origin (neighborOf E origin left)
          (neighborOf E origin right)) ;;
   Some (vertexIndex (lowestIndex origin (neighborOf E origin left)
                        (neighborOf E origin right)) ownerVertexNum)).
Proof.
  intros Hl Hln Hr Hrn. unfold getCellVertex. rewrite Hl. unfold bind at 1.
  apply Z.eqb_neq in Hln. rewrite Hln. rewrite Hr. unfold bind at 1.
  apply Z.eqb_neq in Hrn. rewrite Hrn. reflexivity.
Qed.

Lemma getCellVertex_outside (origin : H3Index) (v : Z) :
  v < 0 \/ numVerts E origin <= v ->
  getCellVertex E origin v = Some H3_NULL.
Proof.
  intros Hv. unfold getCellVertex.
  now rewrite (directionForVertexNum_outside origin v Hv).
Qed.

Lemma ownerVertexNumFor_defined (origin : H3Index) (v : Z)
    (leftNeighbor rightNeighbor owner : H3Index) :
  pentagonRowsAssigned E ->
  directionsUnsigned E ->
  0 <= v < numVerts E origin ->
  exists n, ownerVertexNumFor E origin v leftNeighbor rightNeighbor owner
            = Some n.
Proof.
  intros Hrows Hdirs Hv. unfold ownerVertexNumFor.
  destruct (negb (owner =? origin)); [|eauto].
  assert (Hsimple : isSimpleCase E origin owner = true ->
                    0 <= v < NUM_HEX_VERTS).
  { unfold isSimpleCase, numVerts in *. intros Hs.
    destruct (h3IsPentagon E origin); [|exact Hv].
    rewrite andb_false_r in Hs. discriminate. }
  destruct (vertexNumForDirection_defined owner
              (directionForNeighbor E owner origin) (Hrows owner)
              (Hdirs owner origin)) as [n Hn].
  destruct (owner =? leftNeighbor); [|destruct (owner =? rightNeighbor)].
  - unfold leftOwnerVertexNum.
    destruct (isSimpleCase E origin owner).
    + destruct (neighborVertex_defined v 0 (Hsimple eq_refl)) as [m [Hm _]];
        eauto.
    + rewrite Hn. unfold bind. destruct (_ || _); eauto.
  - unfold rightOwnerVertexNum.
    destruct (isSimpleCase E origin owner).
    + destruct (neighborVertex_defined v 1 (Hsimple eq_refl)) as [m [Hm _]];
        eauto.
    + eauto.
  - eauto.
Qed.

Lemma getCellVertex_defined (origin : H3Index) (v : Z) :
  pentagonRowsAssigned E ->
  directionsUnsigned E ->
  0 <= baseRotation E origin <= 5 ->
  0 <= v < numVerts E origin ->
  exists x, getCellVertex E origin v = Some x /\ x <> H3_NULL.
Proof.
  intros Hrows Hdirs Hb Hv.
  destruct (directionForVertexNum_defined origin v Hb (Hrows origin) Hv)
    as [left [Hl Hln]].
  destruct (directionForVertexNum_defined origin
              (previousVertexNum E origin v) Hb (Hrows origin)
              (previousVertexNum_range origin v Hv)) as [right [Hr Hrn]].
  rewrite (getCellVertex_unfold origin v left right Hl Hln Hr Hrn).
  destruct (ownerVertexNumFor_defined origin v (neighborOf E origin left)
              (neighborOf E origin right)
              (lowestIndex origin (neighborOf E origin left)
                 (neighborOf E origin right)) Hrows Hdirs Hv) as [n Hn].
  rewrite Hn. unfold bind. eexists. split; [reflexivity|].
  apply vertexIndex_not_null.
Qed.

(** C2. For a vertex number [v] of a cell whose base rotation is a rotation
    count, with collaborators that assign [dirFaces] and return unsigned
    directions: the direction [left] of slot [v] and the direction [right]
    of the previous slot [(v - 1 + n) % n] ([n] the number of vertexes of
    the cell) are both defined; [getCellVertex] returns the vertex index
    built on the lowest of the three indexes: the origin, the neighbor
    [h3NeighborRotations] steps to in direction [left] and the one it steps
    to in direction [right]; and when that lowest index is the origin the
    vertex number written to and read from the reserved bits is [v]. *)
Theorem getCellVertex_lowest_owner (origin : H3Index) (v : Z) :
  pentagonRowsAssigned E ->
  directionsUnsigned E ->
  0 <= baseRotation E origin <= 5 ->
  0 <= v < numVerts E origin ->
  exists left right owner ownerVertexNum,
    directionForVertexNum E origin v = Some left
    /\ left <> INVALID_DIGIT
    /\ directionForVertexNum E origin
         (Z.rem (v - 1 + (if h3IsPentagon E origin then 5 else 6))
                (if h3IsPentagon E origin then 5 else 6))
       = Some right
    /\ right <> INVALID_DIGIT
    /\ owner = Z.min origin
                 (Z.min (fst (h3NeighborRotations E origin left 0))
                        (fst (h3NeighborRotations E origin right 0)))
    /\ getCellVertex E origin v = Some (vertexIndex owner ownerVertexNum)
    /\ (owner = origin ->
        ownerVertexNum = v
        /\ H3_GET_RESERVED_BITS (vertexIndex owner ownerVertexNum) = v).
Proof.
  intros Hrows Hdirs Hb Hv.
  destruct (directionForVertexNum_defined origin v Hb (Hrows origin) Hv)
    as [left [Hl Hln]].
  destruct (directionForVertexNum_defined origin
              (previousVertexNum E origin v) Hb (Hrows origin)
              (previousVertexNum_range origin v Hv)) as [right [Hr Hrn]].
  pose proof (getCellVertex_unfold origin v left right Hl Hln Hr Hrn) as Hg.
  rewrite lowestIndex_min in Hg.
  destruct (ownerVertexNumFor_defined origin v (neighborOf E origin left)
              (neighborOf E origin right)
              (Z.min origin (Z.min (neighborOf E origin left)
                                   (neighborOf E origin right)))
              Hrows Hdirs Hv) as [n Hn].
  exists left, right,
    (Z.min origin (Z.min (fst (h3NeighborRotations E origin left 0))
                         (fst (h3NeighborRotations E origin right 0)))), n.
  split; [exact Hl|]. split; [exact Hln|]. split; [exact Hr|].
  split; [exact Hrn|]. split; [reflexivity|].
  split; [rewrite Hg, Hn; reflexivity|].
  intros Hown. unfold ownerVertexNumFor in Hn. unfold neighborOf in Hn.
  rewrite Hown, Z.eqb_refl in Hn. simpl negb in Hn. cbv iota in Hn.
  inversion Hn. subst n. split; [reflexivity|].
  apply vertexIndex_reserved. unfold numVerts in Hv.
  destruct (h3IsPentagon E origin);
    unfold NUM_PENT_VERTS, NUM_HEX_VERTS in Hv; lia.
Qed.

(** C3. In the general case of [getCellVertex] (the owner is not the origin
    and the simple case does not apply), with the two neighbors distinct:
    [vertexNumForDirection] of the owner, for the direction from the owner
    to the origin, returns a value [n]; when the owner is the left neighbor
    the vertex number written is [n + 1], or 0 exactly when [n + 1] is the
    number of vertexes of the owner (6 for a hexagon, 5 for a pentagon);
    when the owner is the right neighbor it is [n]. *)
Theorem general_case_owner_vertex (origin : H3Index) (v : Z)
    (left right : Direction) (owner : H3Index) :
  directionForVertexNum E origin v = Some left ->
  left <> INVALID_DIGIT ->
  directionForVertexNum E origin (previousVertexNum E origin v) = Some right ->
  right <> INVALID_DIGIT ->
  neighborOf E origin left <> neighborOf E origin right ->
  owner = lowestIndex origin (neighborOf E origin left)
            (neighborOf E origin right) ->
  owner <> origin ->
  isSimpleCase E origin owner = false ->
  dirFacesAssigned E owner ->
  0 <= directionForNeighbor E owner origin ->
  exists n,
    vertexNumForDirection E owner (directionForNeighbor E owner origin)
    = Some n
    /\ (owner = neighborOf E origin left ->
        getCellVertex E origin v
        = Some (vertexIndex owner
                  (if n + 1 =? numVerts E owner then 0 else n + 1)))
    /\ (owner = neighborOf E origin right ->
        getCellVertex E origin v = Some (vertexIndex owner n)).
Proof.
  intros Hl Hln Hr Hrn Hdistinct Howner Hne Hsimple Ha Hd.
  destruct (vertexNumForDirection_defined owner
              (directionForNeighbor E owner origin) Ha Hd) as [n Hn].
  exists n. split; [exact Hn|].
  rewrite (getCellVertex_unfold origin v left right Hl Hln Hr Hrn).
  rewrite <- Howner. unfold ownerVertexNumFor.
  apply Z.eqb_neq in Hne. rewrite Hne. simpl negb. cbv iota.
  rewrite Hsimple. split.
  - intros Hleft. rewrite <- Hleft, Z.eqb_refl.
    unfold leftOwnerVertexNum. rewrite Hn. unfold bind, numVerts.
    destruct (h3IsPentagon E owner) eqn:Hp.
    + pose proof (vertexNumForDirection_pentagon owner _ n Hp Hn) as Hlt.
      unfold NUM_PENT_VERTS, NUM_HEX_VERTS in *.
      replace (n + 1 =? 6) with false by (symmetry; apply Z.eqb_neq; lia).
      rewrite orb_false_r. simpl andb.
      destruct (n + 1 =? 5); reflexivity.
    + simpl andb. simpl orb. destruct (n + 1 =? NUM_HEX_VERTS); reflexivity.
  - intros Hright.
    assert (Hnl : (owner =? neighborOf E origin left) = false).
    { apply Z.eqb_neq. intros Heq. apply Hdistinct. congruence. }
    rewrite Hnl, <- Hright, Z.eqb_refl.
    unfold rightOwnerVertexNum. rewrite Hn. reflexivity.
Qed.

(** C5. On a cell whose base rotation is a rotation count, with
    collaborators that assign [dirFaces] and return unsigned directions,
    [getCellVertexes] fills the six slots; slots 0..4 are never [H3_NULL];
    slot 5 is [H3_NULL] on a pentagon and not [H3_NULL] on a hexagon. *)
Theorem getCellVertexes_slots (origin : H3Index) :
  pentagonRowsAssigned E ->
  directionsUnsigned E ->
  0 <= baseRotation E origin <= 5 ->
  exists v0 v1 v2 v3 v4 v5,
    getCellVertexes E origin = Some [v0; v1; v2; v3; v4; v5]
    /\ v0 <> H3_NULL /\ v1 <> H3_NULL /\ v2 <> H3_NULL
    /\ v3 <> H3_NULL /\ v4 <> H3_NULL
    /\ (h3IsPentagon E origin = true -> v5 = H3_NULL)
    /\ (h3IsPentagon E origin = false -> v5 <> H3_NULL).
Proof.
  intros Hrows Hdirs Hb.
  assert (Hlow : forall v, 0 <= v < 5 ->
            exists x, getCellVertex E origin v = Some x /\ x <> H3_NULL).
  { intros v Hv. apply getCellVertex_defined; try assumption.
    unfold numVerts. destruct (h3IsPentagon E origin);
      unfold NUM_PENT_VERTS, NUM_HEX_VERTS; lia. }
  destruct (Hlow 0 ltac:(lia)) as [v0 [H0 N0]].
  destruct (Hlow 1 ltac:(lia)) as [v1 [H1 N1]].
  destruct (Hlow 2 ltac:(lia)) as [v2 [H2 N2]].
  destruct (Hlow 3 ltac:(lia)) as [v3 [H3 N3]].
  destruct (Hlow 4 ltac:(lia)) as [v4 [H4 N4]].
  assert (H5 : exists v5, getCellVertex E origin 5 = Some v5
            /\ (h3IsPentagon E origin = true -> v5 = H3_NULL)
            /\ (h3IsPentagon E origin = false -> v5 <> H3_NULL)).
  { destruct (h3IsPentagon E origin) eqn:Hp.
    - exists H3_NULL. split; [|split; [reflexivity | discriminate]].
      apply getCellVertex_outside. right. unfold numVerts. rewrite Hp.
      unfold NUM_PENT_VERTS. lia.
    - destruct (getCellVertex_defined origin 5 Hrows Hdirs Hb) as [v5 [H5 N5]].
      { unfold numVerts. rewrite Hp. unfold NUM_HEX_VERTS. lia. }
      exists v5. split; [exact H5|]. split; [discriminate | intros _; exact N5]. }
  destruct H5 as [v5 [H5 [P5 Q5]]].
  exists v0, v1, v2, v3, v4, v5.
  split; [|now repeat split].
  unfold getCellVertexes.
  change (Z.to_nat NUM_HEX_VERTS) with 6%nat. cbn [cellVertexesFrom].
  change (0 + 1) with 1. rewrite H0. unfold bind at 1.
  change (1 + 1) with 2. rewrite H1. unfold bind at 1.
  change (2 + 1) with 3. rewrite H2. unfold bind at 1.
  change (3 + 1) with 4. rewrite H3. unfold bind at 1.
  change (4 + 1) with 5. rewrite H4. unfold bind at 1.
  rewrite H5. reflexivity.
Qed.

End CellVertex.

(** ** The sample grid *)

Module SampleFacts.

Lemma rows_assigned (faceOf : H3Index -> Z) :
  pentagonRowsAssigned (Sample.collaborators faceOf).
Proof.
  intros cell. unfold dirFacesAssigned. cbn [h3GetBaseCell Sample.collaborators
    _isBaseCellPentagon].
  generalize (Sample.getBaseCell cell). intros bc.
  unfold Sample.isBaseCellPentagon. rewrite existsb_exists.
  intros [x [Hin Heq]]. apply Z.eqb_eq in Heq. subst x.
  unfold Sample.pentagons in Hin. cbn [In] in Hin.
  repeat (destruct Hin as [Hin | Hin]; [subst bc; discriminate|]).
  destruct Hin.
Qed.

Lemma directions_unsigned (faceOf : H3Index -> Z) :
  directionsUnsigned (Sample.collaborators faceOf).
Proof.
  intros a b. cbn [directionForNeighbor Sample.collaborators].
  unfold Sample.directionTo.
  destruct (find _ _) as [d|] eqn:Hf; [|unfold INVALID_DIGIT; lia].
  apply find_some in Hf. destruct Hf as [Hin _].
  destruct (Sample.isPentagon a); cbn [In] in Hin;
    repeat (destruct Hin as [Hin | Hin]; [lia|]); destruct Hin.
Qed.

End SampleFacts.

Lemma polar_or_ik_face_adds_one_witness :
  vertexRotations (Sample.collaborators Sample.digitFace) (Sample.cell 4 5)
    true
  = deletedSubsequenceRotation IK_AXES_DIGIT 1
      (Some {| baseCell := 4; faces := [4; 0; 2; 1; 3] |}) ((5 + 1) mod 6).
Proof.
  refine (proj1 (proj2
    (polar_or_ik_face_adds_one (Sample.collaborators Sample.digitFace)
       (Sample.cell 4 5) {| baseCell := 4; faces := [4; 0; 2; 1; 3] |}
       _ _ _ _ _))).
  - reflexivity.
  - reflexivity.
  - vm_compute. split; discriminate.
  - vm_compute. discriminate.
  - left. reflexivity.
Defined.

(** The deleted-subsequence block may take the added rotation back: a cell
    of the polar pentagon 4 with leading digit JK on the IK face. *)
Example polar_rotation_taken_back :
  baseRotation (Sample.collaborators (fun _ => 1)) (Sample.cell 4 3) = 5
  /\ vertexRotations (Sample.collaborators (fun _ => 1)) (Sample.cell 4 3)
       true = Some 5.
Proof. split; reflexivity. Qed.

Lemma deleted_subsequence_rotation_witness :
  exists r1,
    polarOrIKRotation (Sample.collaborators (fun _ => 1)) 4 1 0
      (Some {| baseCell := 4; faces := [4; 0; 2; 1; 3] |}) 5 = Some r1
    /\ 0 <= r1 <= 5
    /\ (JK_AXES_DIGIT = JK_AXES_DIGIT ->
        Some 1 = Some 1 ->
        vertexRotations (Sample.collaborators (fun _ => 1)) (Sample.cell 4 3)
          true = Some ((r1 - 1) mod 6))
    /\ (JK_AXES_DIGIT = IK_AXES_DIGIT ->
        Some 0 = Some 1 ->
        vertexRotations (Sample.collaborators (fun _ => 1)) (Sample.cell 4 3)
          true = Some ((r1 + 1) mod 6)).
Proof.
  apply (deleted_subsequence_rotation (Sample.collaborators (fun _ => 1))
           (Sample.cell 4 3) {| baseCell := 4; faces := [4; 0; 2; 1; 3] |}).
  - reflexivity.
  - reflexivity.
  - vm_compute. split; discriminate.
Defined.

Lemma pentagon_base_cells_have_rows_witness :
  (exists df, findDirFaces 117 = Some df
              /\ In df pentagonDirectionFaces /\ baseCell df = 117)
  /\ forall cell,
       h3GetBaseCell (Sample.collaborators Sample.digitFace) cell = 117 ->
       exists r,
         vertexRotations (Sample.collaborators Sample.digitFace) cell true
         = Some r.
Proof.
  apply (pentagon_base_cells_have_rows
           (Sample.collaborators Sample.digitFace) 117).
  - split.
    + reflexivity.
    + repeat (apply Forall_cons; [reflexivity|]). apply Forall_nil.
  - unfold NUM_BASE_CELLS. lia.
  - reflexivity.
Defined.

Lemma vertexNum_direction_inverse_witness :
  exists d, directionForVertexNum Sample.grid Sample.pentagon 3 = Some d
            /\ d <> INVALID_DIGIT
            /\ vertexNumForDirection Sample.grid Sample.pentagon d = Some 3.
Proof.
  apply (vertexNum_direction_inverse Sample.grid Sample.pentagon 3).
  - vm_compute. split; discriminate.
  - apply SampleFacts.rows_assigned.
  - vm_compute. split; [discriminate | reflexivity].
Defined.

Lemma vertexNumForDirection_invalid_iff_witness :
  exists n,
    vertexNumForDirection Sample.grid Sample.pentagon K_AXES_DIGIT = Some n
    /\ (n = INVALID_VERTEX_NUM
        <-> rejectedDirection Sample.grid Sample.pentagon K_AXES_DIGIT)
    /\ (n <> INVALID_VERTEX_NUM -> 0 <= n < numVerts Sample.grid Sample.pentagon).
Proof.
  apply (vertexNumForDirection_invalid_iff Sample.grid Sample.pentagon
           K_AXES_DIGIT).
  - unfold K_AXES_DIGIT. lia.
  - vm_compute. split; discriminate.
  - apply SampleFacts.rows_assigned.
Defined.

Lemma getCellVertex_lowest_owner_witness :
  (exists left right owner ownerVertexNum,
     directionForVertexNum Sample.grid Sample.hexagon 2 = Some left
     /\ left <> INVALID_DIGIT
     /\ directionForVertexNum Sample.grid Sample.hexagon
          (Z.rem (2 - 1 + (if h3IsPentagon Sample.grid Sample.hexagon
                           then 5 else 6))
                 (if h3IsPentagon Sample.grid Sample.hexagon then 5 else 6))
        = Some right
     /\ right <> INVALID_DIGIT
     /\ owner = Z.min Sample.hexagon
                  (Z.min (fst (h3NeighborRotations Sample.grid
                                 Sample.hexagon left 0))
                         (fst (h3NeighborRotations Sample.grid
                                 Sample.hexagon right 0)))
     /\ getCellVertex Sample.grid Sample.hexagon 2
        = Some (vertexIndex owner ownerVertexNum)
     /\ (owner = Sample.hexagon ->
         ownerVertexNum = 2
         /\ H3_GET_RESERVED_BITS (vertexIndex owner ownerVertexNum) = 2))
  /\ directionForVertexNum Sample.grid Sample.hexagon 2 = Some IK_AXES_DIGIT
  /\ directionForVertexNum Sample.grid Sample.hexagon 1 = Some K_AXES_DIGIT
  /\ fst (h3NeighborRotations Sample.grid Sample.hexagon IK_AXES_DIGIT 0)
     = Sample.cell 23 3
  /\ fst (h3NeighborRotations Sample.grid Sample.hexagon K_AXES_DIGIT 0)
     = Sample.cell 15 3
  /\ Sample.cell 15 3 < Sample.hexagon < Sample.cell 23 3
  /\ getCellVertex Sample.grid Sample.hexagon 2
     = Some (vertexIndex (Sample.cell 15 3) 0).
Proof.
  split.
  - apply (getCellVertex_lowest_owner Sample.grid Sample.hexagon 2).
    + apply SampleFacts.rows_assigned.
    + apply SampleFacts.directions_unsigned.
    + vm_compute. split; discriminate.
    + vm_compute. split; [discriminate | reflexivity].
  - repeat split.
Defined.

Lemma general_case_owner_vertex_witness :
  exists n,
    vertexNumForDirection Sample.grid (Sample.cell 15 3)
      (directionForNeighbor Sample.grid (Sample.cell 15 3) Sample.hexagon)
    = Some n
    /\ (Sample.cell 15 3 = neighborOf Sample.grid Sample.hexagon 1 ->
        getCellVertex Sample.grid Sample.hexagon 1
        = Some (vertexIndex (Sample.cell 15 3)
                  (if n + 1 =? numVerts Sample.grid (Sample.cell 15 3)
                   then 0 else n + 1)))
    /\ (Sample.cell 15 3 = neighborOf Sample.grid Sample.hexagon 3 ->
        getCellVertex Sample.grid Sample.hexagon 1
        = Some (vertexIndex (Sample.cell 15 3) n)).
Proof.
  apply (general_case_owner_vertex Sample.grid Sample.hexagon 1 1 3
           (Sample.cell 15 3)).
  - reflexivity.
  - discriminate.
  - reflexivity.
  - discriminate.
  - vm_compute. discriminate.
  - reflexivity.
  - vm_compute. discriminate.
  - reflexivity.
  - apply SampleFacts.rows_assigned.
  - vm_compute. discriminate.
Defined.

Lemma getCellVertexes_slots_witness :
  exists v0 v1 v2 v3 v4 v5,
    getCellVertexes Sample.grid Sample.pentagon
    = Some [v0; v1; v2; v3; v4; v5]
    /\ v0 <> H3_NULL /\ v1 <> H3_NULL /\ v2 <> H3_NULL
    /\ v3 <> H3_NULL /\ v4 <> H3_NULL
    /\ (h3IsPentagon Sample.grid Sample.pentagon = true -> v5 = H3_NULL)
    /\ (h3IsPentagon Sample.grid Sample.pentagon = false -> v5 <> H3_NULL).
Proof.
  apply (getCellVertexes_slots Sample.grid Sample.pentagon).
  - apply SampleFacts.rows_assigned.
  - apply SampleFacts.directions_unsigned.
  - vm_compute. split; discriminate.
Defined.

(** The slots of the sample pentagon and of the sample hexagon. *)
Example pentagon_slots :
  getCellVertexes Sample.grid Sample.pentagon
  = Some [2310491744375930879; 2382549338413858815; 2526558973373448191;
          2454501379335520255; 2670744530193481727; H3_NULL].
Proof. reflexivity. Qed.

Example hexagon_slots :
  getCellVertexes Sample.grid Sample.hexagon
  = Some [2310962335352619007; 2382949560646369279; 2310891966608441343;
          2527240670582669311; 2599298264620597247; 2383019929390546943].
Proof. reflexivity. Qed.

(** * Further properties *)

(** ** Fields of the packed index *)

Lemma uint64_bit (x n : Z) :
  0 <= n -> Z.testbit (uint64 x) n = (n <? 64) && Z.testbit x n.
Proof.
  intros Hn. unfold uint64. destruct (Z.ltb_spec n 64).
  - now rewrite Z.mod_pow2_bits_low by lia.
  - now rewrite Z.mod_pow2_bits_high by lia.
Qed.

Lemma field_bit (w off n : Z) :
  0 <= w -> 0 <= off -> 0 <= n ->
  Z.testbit (Z.shiftl (Z.ones w) off) n = (off <=? n) && (n <? off + w).
Proof.
  intros Hw Ho Hn. rewrite Z.shiftl_spec by lia.
  destruct (Z.leb_spec off n); destruct (Z.ltb_spec n (off + w)); simpl.
  - apply Z.ones_spec_low. lia.
  - apply Z.ones_spec_high. lia.
  - apply Z.testbit_neg_r. lia.
  - apply Z.testbit_neg_r. lia.
Qed.

Lemma mode_mask_bit (n : Z) :
  0 <= n -> Z.testbit H3_MODE_MASK n = (59 <=? n) && (n <? 63).
Proof.
  intros Hn. unfold H3_MODE_MASK, H3_MODE_OFFSET.
  change 15 with (Z.ones 4). now rewrite field_bit by lia.
Qed.

Lemma reserved_mask_bit (n : Z) :
  0 <= n -> Z.testbit H3_RESERVED_MASK n = (56 <=? n) && (n <? 59).
Proof.
  intros Hn. unfold H3_RESERVED_MASK, H3_RESERVED_OFFSET.
  change 7 with (Z.ones 3). now rewrite field_bit by lia.
Qed.

Lemma mode_mask_negative_bit (n : Z) :
  0 <= n ->
  Z.testbit H3_MODE_MASK_NEGATIVE n
  = (n <? 64) && negb ((59 <=? n) && (n <? 63)).
Proof.
  intros Hn. unfold H3_MODE_MASK_NEGATIVE.
  now rewrite uint64_bit, Z.lnot_spec, mode_mask_bit by lia.
Qed.

Lemma reserved_mask_negative_bit (n : Z) :
  0 <= n ->
  Z.testbit H3_RESERVED_MASK_NEGATIVE n
  = (n <? 64) && negb ((56 <=? n) && (n <? 59)).
Proof.
  intros Hn. unfold H3_RESERVED_MASK_NEGATIVE.
  now rewrite uint64_bit, Z.lnot_spec, reserved_mask_bit by lia.
Qed.

(** The bits a field value [v] of width [w] leaves at offset [off]. *)
Lemma field_value_bit (v off n : Z) :
  0 <= off -> 0 <= n ->
  Z.testbit (uint64 (Z.shiftl (uint64 v) off)) n
  = (n <? 64) && (off <=? n) && Z.testbit v (n - off).
Proof.
  intros Ho Hn. rewrite uint64_bit by lia. rewrite Z.shiftl_spec by lia.
  destruct (Z.ltb_spec n 64); simpl; [|reflexivity].
  destruct (Z.leb_spec off n); simpl.
  - rewrite uint64_bit by lia.
    replace (n - off <? 64) with true by (symmetry; apply Z.ltb_lt; lia).
    reflexivity.
  - apply Z.testbit_neg_r. lia.
Qed.

Lemma H3_SET_MODE_bit (h v n : Z) :
  0 <= n ->
  Z.testbit (H3_SET_MODE h v) n
  = (Z.testbit h n && ((n <? 64) && negb ((59 <=? n) && (n <? 63))))
    || ((n <? 64) && (59 <=? n) && Z.testbit v (n - 59)).
Proof.
  intros Hn. unfold H3_SET_MODE, H3_MODE_OFFSET.
  now rewrite Z.lor_spec, Z.land_spec, mode_mask_negative_bit,
    field_value_bit by lia.
Qed.

Lemma H3_SET_RESERVED_BITS_bit (h v n : Z) :
  0 <= n ->
  Z.testbit (H3_SET_RESERVED_BITS h v) n
  = (Z.testbit h n && ((n <? 64) && negb ((56 <=? n) && (n <? 59))))
    || ((n <? 64) && (56 <=? n) && Z.testbit v (n - 56)).
Proof.
  intros Hn. unfold H3_SET_RESERVED_BITS, H3_RESERVED_OFFSET.
  now rewrite Z.lor_spec, Z.land_spec, reserved_mask_negative_bit,
    field_value_bit by lia.
Qed.

Lemma H3_GET_MODE_bit (h n : Z) :
  0 <= n ->
  Z.testbit (H3_GET_MODE h) n = Z.testbit h (n + 59) && (n <? 4).
Proof.
  intros Hn. unfold H3_GET_MODE, H3_MODE_OFFSET.
  rewrite Z.shiftr_spec, Z.land_spec, mode_mask_bit by lia.
  f_equal. lia.
Qed.

Lemma H3_GET_RESERVED_BITS_bit (h n : Z) :
  0 <= n ->
  Z.testbit (H3_GET_RESERVED_BITS h) n = Z.testbit h (n + 56) && (n <? 3).
Proof.
  intros Hn. unfold H3_GET_RESERVED_BITS, H3_RESERVED_OFFSET.
  rewrite Z.shiftr_spec, Z.land_spec, reserved_mask_bit by lia.
  f_equal. lia.
Qed.

(** Comparisons of a bit position decided by arithmetic. *)
Ltac decide_positions :=
  repeat match goal with
  | |- context [?a <=? ?b] =>
      first [ replace (a <=? b) with true by lia
            | replace (a <=? b) with false by lia ]
  | |- context [?a <? ?b] =>
      first [ replace (a <? b) with true by lia
            | replace (a <? b) with false by lia ]
  end.

(** Case analysis on the bits left symbolic. *)
Ltac bits_cases :=
  repeat match goal with
  | |- context [Z.testbit ?a ?b] => destruct (Z.testbit a b)
  end;
  reflexivity.

(** The bits of a cell index from bit 56 on, bit 63 apart. *)
Lemma isCellIndex_bits (h n : Z) :
  isCellIndex h -> 56 <= n -> n <> 63 ->
  Z.testbit h n = (n =? 59).
Proof.
  intros [Hr [Hm Hz]] Hn H63.
  destruct (Z_lt_ge_dec n 59) as [H59 | H59].
  - pose proof (H3_GET_RESERVED_BITS_bit h (n - 56) ltac:(lia)) as Hb.
    rewrite Hz, Z.bits_0 in Hb. replace (n - 56 + 56) with n in Hb by lia.
    replace (n - 56 <? 3) with true in Hb by lia.
    rewrite andb_true_r in Hb. rewrite <- Hb. lia.
  - destruct (Z_lt_ge_dec n 63) as [Hlt | Hge].
    + pose proof (H3_GET_MODE_bit h (n - 59) ltac:(lia)) as Hb.
      rewrite Hm in Hb. replace (n - 59 + 59) with n in Hb by lia.
      replace (n - 59 <? 4) with true in Hb by lia.
      rewrite andb_true_r in Hb. rewrite <- Hb. unfold H3_HEXAGON_MODE.
      assert (Hc : n = 59 \/ n = 60 \/ n = 61 \/ n = 62) by lia.
      destruct Hc as [-> | [-> | [-> | ->]]]; reflexivity.
    + replace (n =? 59) with false by lia.
      rewrite <- (Z.mod_small h (2 ^ 64)) by exact Hr.
      apply Z.mod_pow2_bits_high. lia.
Qed.

Lemma vertexOwner_vertexIndex (owner : H3Index) (ownerVertexNum : Z) :
  isCellIndex owner -> 0 <= ownerVertexNum < 8 ->
  vertexOwner (vertexIndex owner ownerVertexNum) = owner.
Proof.
  intros Hc Hk. apply Z.bits_inj'. intros n Hn.
  unfold vertexOwner, vertexIndex.
  repeat first [ rewrite H3_SET_RESERVED_BITS_bit by exact Hn
               | rewrite H3_SET_MODE_bit by exact Hn ].
  rewrite Z.bits_0, andb_false_r, orb_false_r.
  destruct (Z_lt_ge_dec n 56) as [Hlow | Hhigh].
  - decide_positions. bits_cases.
  - destruct (Z.eq_dec n 63) as [E63 | H63].
    + rewrite (small_bits ownerVertexNum (n - 56)) by lia.
      rewrite (small_bits H3_VERTEX_MODE (n - 59))
        by (unfold H3_VERTEX_MODE; lia).
      rewrite (small_bits H3_HEXAGON_MODE (n - 59))
        by (unfold H3_HEXAGON_MODE; lia).
      decide_positions. bits_cases.
    + rewrite (isCellIndex_bits owner n Hc ltac:(lia) H63).
      destruct (Z_lt_ge_dec n 59) as [H59 | H59].
      * decide_positions. replace (n =? 59) with false by lia. bits_cases.
      * destruct (Z_lt_ge_dec n 63) as [Hlt | Hge].
        -- rewrite (small_bits ownerVertexNum (n - 56)) by lia.
           decide_positions.
           assert (Hcase : n = 59 \/ n = 60 \/ n = 61 \/ n = 62) by lia.
           destruct Hcase as [-> | [-> | [-> | ->]]]; reflexivity.
        -- decide_positions. replace (n =? 59) with false by lia.
           bits_cases.
Qed.

Lemma vertexIndex_mode (owner : H3Index) (ownerVertexNum : Z) :
  0 <= ownerVertexNum < 8 ->
  H3_GET_MODE (vertexIndex owner ownerVertexNum) = H3_VERTEX_MODE.
Proof.
  intros Hk. apply Z.bits_inj'. intros n Hn.
  rewrite H3_GET_MODE_bit by exact Hn. unfold vertexIndex.
  rewrite H3_SET_RESERVED_BITS_bit, H3_SET_MODE_bit by lia.
  rewrite (small_bits ownerVertexNum (n + 59 - 56)) by lia.
  replace (n + 59 - 59) with n by lia.
  destruct (Z_lt_ge_dec n 4) as [Hlt | Hge].
  - decide_positions. rewrite !andb_false_r, !andb_true_r, orb_false_r.
    reflexivity.
  - rewrite (small_bits H3_VERTEX_MODE n) by (unfold H3_VERTEX_MODE; lia).
    decide_positions. apply andb_false_r.
Qed.

(** ** Rotation counts, continued *)

Section RotationsFurther.

Variable E : Collaborators.

Lemma pentagonDirectionFaces_IK_JK (df : PentagonDirectionFaces) :
  In df pentagonDirectionFaces ->
  faceAt df IK_AXES_DIGIT <> faceAt df JK_AXES_DIGIT.
Proof.
  assert (H : forallb (fun e => negb (faceAt e IK_AXES_DIGIT
                                      =? faceAt e JK_AXES_DIGIT))
                pentagonDirectionFaces = true) by reflexivity.
  rewrite forallb_forall in H. intros Hin. specialize (H df Hin).
  apply negb_true_iff in H. now apply Z.eqb_neq.
Qed.

(** X1. On a cell whose [dirFaces] row is assigned and whose base rotation
    is in 0..5, [vertexRotations] returns a count in 0..5 for either value
    of the flag, and the base rotation itself when the adjustment is not
    asked for or the base cell is not a pentagon. *)
Theorem vertexRotations_count (cell : H3Index) (adjustForPentagon : bool) :
  dirFacesAssigned E cell ->
  0 <= baseRotation E cell <= 5 ->
  exists r,
    vertexRotations E cell adjustForPentagon = Some r
    /\ 0 <= r <= 5
    /\ (adjustForPentagon = false
        \/ _isBaseCellPentagon E (h3GetBaseCell E cell) = false ->
        r = baseRotation E cell).
Proof.
  intros Ha Hb.
  destruct (vertexRotations_defined E cell adjustForPentagon Ha) as [r Hr].
  exists r. split; [exact Hr|]. split.
  - now apply (vertexRotations_range E cell adjustForPentagon).
  - intros Hoff. unfold vertexRotations in Hr.
    assert (Hc : adjustForPentagon
                 && _isBaseCellPentagon E (h3GetBaseCell E cell) = false).
    { destruct Hoff as [-> | ->]; [reflexivity | apply andb_false_r]. }
    rewrite Hc in Hr. now inversion Hr.
Qed.

(** X2. With the pentagon adjustment, [vertexRotations] reads [dirFaces]
    unassigned exactly when the base cell is a pentagon without a row and
    the cell is off the home face of a pentagon that is not polar, or its
    leading digit is JK or IK. *)
Theorem vertexRotations_unassigned_read (cell : H3Index) :
  vertexRotations E cell true = None
  <-> (_isBaseCellPentagon E (h3GetBaseCell E cell) = true
       /\ findDirFaces (h3GetBaseCell E cell) = None
       /\ ((cellFace E cell <> homeFaceOf E cell
            /\ _isBaseCellPolarPentagon E (h3GetBaseCell E cell) = false)
           \/ _h3LeadingNonZeroDigit E cell = JK_AXES_DIGIT
           \/ _h3LeadingNonZeroDigit E cell = IK_AXES_DIGIT)).
Proof.
  unfold vertexRotations, cellFace, homeFaceOf. simpl andb.
  destruct (_isBaseCellPentagon E (h3GetBaseCell E cell)).
  2: { split; [discriminate | intros [H _]; discriminate]. }
  destruct (findDirFaces (h3GetBaseCell E cell)) as [df|] eqn:Hf.
  - apply findDirFaces_In in Hf. destruct Hf as [Hin _].
    rewrite (polarOrIKRotation_assigned E _ _ _ df _ Hin). unfold bind.
    rewrite (deletedSubsequenceRotation_assigned _ _ df _ Hin).
    split; [discriminate | intros [_ [H _]]; discriminate].
  - unfold polarOrIKRotation, deletedSubsequenceRotation, onDirFace,
      dirFace, andC, orC, bind.
    destruct (Z.eqb_spec (face (_h3ToFaceIjk E cell))
                (face (_baseCellToFaceIjk E (h3GetBaseCell E cell))))
      as [Hface | Hface];
      destruct (_isBaseCellPolarPentagon E (h3GetBaseCell E cell));
      destruct (Z.eqb_spec (_h3LeadingNonZeroDigit E cell) JK_AXES_DIGIT)
        as [Hjk | Hjk];
      destruct (Z.eqb_spec (_h3LeadingNonZeroDigit E cell) IK_AXES_DIGIT)
        as [Hik | Hik];
      simpl; split; try discriminate; try tauto;
      intros [_ [_ [[H1 H2] | [H | H]]]]; congruence.
Qed.

(** X3. With the pentagon adjustment on a pentagon base cell that has a
    row, the returned count is the base rotation moved by at most one step
    either way, or, for a polar pentagon only, by two steps
    counterclockwise. *)
Theorem vertexRotations_adjustment (cell : H3Index)
    (df : PentagonDirectionFaces) :
  _isBaseCellPentagon E (h3GetBaseCell E cell) = true ->
  findDirFaces (h3GetBaseCell E cell) = Some df ->
  0 <= baseRotation E cell <= 5 ->
  exists r,
    vertexRotations E cell true = Some r
    /\ (r = baseRotation E cell
        \/ r = (baseRotation E cell + 1) mod 6
        \/ r = (baseRotation E cell - 1) mod 6
        \/ (_isBaseCellPolarPentagon E (h3GetBaseCell E cell) = true
            /\ r = (baseRotation E cell + 2) mod 6)).
Proof.
  intros Hp Hf Hb.
  destruct (findDirFaces_In _ _ Hf) as [Hin _].
  pose proof (pentagonDirectionFaces_IK_JK df Hin) as Hrow.
  rewrite (vertexRotations_pentagon E cell df Hp Hf).
  rewrite (polarOrIKRotation_assigned E _ _ _ df _ Hin). unfold bind.
  rewrite (deletedSubsequenceRotation_assigned _ _ df _ Hin).
  eexists. split; [reflexivity|].
  generalize dependent (baseRotation E cell). intros b Hb.
  destruct (Z.eqb_spec (cellFace E cell) (homeFaceOf E cell));
    destruct (_isBaseCellPolarPentagon E (h3GetBaseCell E cell));
    destruct (Z.eqb_spec (cellFace E cell) (faceAt df IK_AXES_DIGIT));
    destruct (Z.eqb_spec (cellFace E cell) (faceAt df JK_AXES_DIGIT));
    destruct (_h3LeadingNonZeroDigit E cell =? JK_AXES_DIGIT);
    destruct (_h3LeadingNonZeroDigit E cell =? IK_AXES_DIGIT);
    simpl; try congruence;
    enumerate b; try lia; cbv; intuition congruence.
Qed.

End RotationsFurther.

(** ** Directions and vertex numbers, continued *)

Section DirectionVertexFurther.

Variable E : Collaborators.

(** X4. On a cell whose [dirFaces] row is assigned and whose base rotation
    is in 0..5, [directionForVertexNum] returns [INVALID_DIGIT] exactly
    when the vertex number is negative or not below the number of vertexes
    of the cell; otherwise it returns one of the six digits K..IJ, and never
    the K digit on a pentagon. *)
Theorem directionForVertexNum_invalid_iff (cell : H3Index) (v : Z) :
  0 <= baseRotation E cell <= 5 ->
  dirFacesAssigned E cell ->
  exists d,
    directionForVertexNum E cell v = Some d
    /\ (d = INVALID_DIGIT <-> v < 0 \/ numVerts E cell <= v)
    /\ (d <> INVALID_DIGIT ->
        K_AXES_DIGIT <= d <= IJ_AXES_DIGIT
        /\ (h3IsPentagon E cell = true -> d <> K_AXES_DIGIT)).
Proof.
  intros Hb Ha.
  destruct (Z_lt_ge_dec v 0) as [Hneg | Hpos].
  { exists INVALID_DIGIT. split; [|split].
    - apply directionForVertexNum_outside. now left.
    - split; [intros _; now left | reflexivity].
    - intros H. now destruct H. }
  destruct (Z_lt_ge_dec v (numVerts E cell)) as [Hin | Hout].
  2: { exists INVALID_DIGIT. split; [|split].
       - apply directionForVertexNum_outside. right. lia.
       - split; [intros _; right; lia | reflexivity].
       - intros H. now destruct H. }
  destruct (vertexRotations_rotation E cell Hb Ha) as [r [Hr Hrange]].
  unfold numVerts in *. unfold directionForVertexNum.
  rewrite Hr. clear Hr Hb Ha.
  destruct (h3IsPentagon E cell); unfold NUM_PENT_VERTS, NUM_HEX_VERTS in *;
    enumerate v; try lia; enumerate r; try lia;
    (eexists; split; [reflexivity|]; split;
     [ split; [discriminate | lia]
     | intros _; cbv; intuition discriminate ]).
Qed.

(** X5. On a cell whose [dirFaces] row is assigned and whose base rotation
    is in 0..5, for every direction [vertexNumForDirection] does not
    reject, the vertex number it returns is mapped back to that direction
    by [directionForVertexNum]. *)
Theorem direction_vertexNum_inverse (cell : H3Index) (direction : Direction) :
  0 <= direction ->
  0 <= baseRotation E cell <= 5 ->
  dirFacesAssigned E cell ->
  ~ rejectedDirection E cell direction ->
  exists n,
    vertexNumForDirection E cell direction = Some n
    /\ 0 <= n < numVerts E cell
    /\ directionForVertexNum E cell n = Some direction.
Proof.
  intros Hd Hb Ha Hrej.
  assert (Hlt : direction < INVALID_DIGIT).
  { destruct (Z_lt_ge_dec direction INVALID_DIGIT); [assumption|].
    exfalso. apply Hrej. right. now left. }
  destruct (vertexRotations_rotation E cell Hb Ha) as [r [Hr Hrange]].
  unfold rejectedDirection in Hrej.
  unfold numVerts, vertexNumForDirection, directionForVertexNum.
  rewrite Hr. clear Hr Hb Ha. unfold INVALID_DIGIT in Hlt.
  destruct (h3IsPentagon E cell); enumerate direction; try lia;
    try (exfalso; apply Hrej; cbv; tauto);
    enumerate r; try lia;
    (eexists; split; [reflexivity|]; split;
     [cbv; intuition discriminate | reflexivity]).
Qed.

End DirectionVertexFurther.

(** ** Vertex indexes, continued *)

Lemma fifteen_bits (n : Z) : 0 <= n -> Z.testbit 15 n = (n <? 4).
Proof.
  intros Hn. change 15 with (Z.ones 4). destruct (Z.ltb_spec n 4).
  - apply Z.ones_spec_low. lia.
  - apply Z.ones_spec_high. lia.
Qed.

Lemma seven_bits (n : Z) : 0 <= n -> Z.testbit 7 n = (n <? 3).
Proof.
  intros Hn. change 7 with (Z.ones 3). destruct (Z.ltb_spec n 3).
  - apply Z.ones_spec_low. lia.
  - apply Z.ones_spec_high. lia.
Qed.

(** [INVALID_VERTEX_NUM] written to the reserved bits fills bits 56-63. *)
Lemma vertexIndex_invalid (owner : H3Index) :
  H3_GET_MODE (vertexIndex owner INVALID_VERTEX_NUM) = 15
  /\ H3_GET_RESERVED_BITS (vertexIndex owner INVALID_VERTEX_NUM) = 7.
Proof.
  unfold INVALID_VERTEX_NUM. split; apply Z.bits_inj'; intros n Hn.
  - rewrite H3_GET_MODE_bit, fifteen_bits by exact Hn. unfold vertexIndex.
    rewrite H3_SET_RESERVED_BITS_bit by lia.
    rewrite Z.bits_m1 by lia.
    destruct (Z.ltb_spec n 4); [|apply andb_false_r].
    decide_positions. now rewrite orb_true_r.
  - rewrite H3_GET_RESERVED_BITS_bit, seven_bits by exact Hn.
    unfold vertexIndex. rewrite H3_SET_RESERVED_BITS_bit by lia.
    rewrite Z.bits_m1 by lia.
    destruct (Z.ltb_spec n 3); [|apply andb_false_r].
    decide_positions. now rewrite orb_true_r.
Qed.

(** ** Owners and their vertex numbers, continued *)

Section CellVertexFurther.

Variable E : Collaborators.

Lemma directionForVertexNum_inside (cell : H3Index) (v : Z) (d : Direction) :
  directionForVertexNum E cell v = Some d ->
  d <> INVALID_DIGIT ->
  0 <= v < numVerts E cell.
Proof.
  intros Hd Hn.
  destruct (Z_lt_ge_dec v 0) as [Hneg | Hpos].
  { rewrite (directionForVertexNum_outside E cell v) in Hd by now left.
    inversion Hd. congruence. }
  destruct (Z_lt_ge_dec v (numVerts E cell)) as [Hin | Hout]; [lia|].
  rewrite (directionForVertexNum_outside E cell v) in Hd by (right; lia).
  inversion Hd. congruence.
Qed.

Lemma lowestIndex_cases (origin leftNeighbor rightNeighbor : H3Index) :
  lowestIndex origin leftNeighbor rightNeighbor = origin
  \/ lowestIndex origin leftNeighbor rightNeighbor = leftNeighbor
  \/ lowestIndex origin leftNeighbor rightNeighbor = rightNeighbor.
Proof. rewrite lowestIndex_min. lia. Qed.

Lemma vertexNumForDirection_vertex (cell : H3Index) (direction : Direction) :
  0 <= direction ->
  0 <= baseRotation E cell <= 5 ->
  dirFacesAssigned E cell ->
  ~ rejectedDirection E cell direction ->
  exists n, vertexNumForDirection E cell direction = Some n
            /\ 0 <= n < numVerts E cell.
Proof.
  intros Hd Hb Ha Hrej.
  assert (Hlt : direction < INVALID_DIGIT).
  { destruct (Z_lt_ge_dec direction INVALID_DIGIT); [assumption|].
    exfalso. apply Hrej. right. now left. }
  destruct (vertexRotations_rotation E cell Hb Ha) as [r [Hr Hrange]].
  unfold rejectedDirection in Hrej.
  unfold numVerts, vertexNumForDirection.
  rewrite Hr. clear Hr Hb Ha. unfold INVALID_DIGIT in Hlt.
  destruct (h3IsPentagon E cell); enumerate direction; try lia;
    try (exfalso; apply Hrej; cbv; tauto);
    enumerate r; try lia;
    (eexists; split; [reflexivity | cbv; intuition discriminate]).
Qed.

(** X6. With collaborators that assign [dirFaces] and return unsigned
    directions, on a cell whose base rotation is in 0..5, [getCellVertex]
    returns [H3_NULL] exactly when the vertex number is negative or not
    below the number of vertexes of the cell. *)
Theorem getCellVertex_null_iff (origin : H3Index) (v : Z) :
  pentagonRowsAssigned E ->
  directionsUnsigned E ->
  0 <= baseRotation E origin <= 5 ->
  exists x,
    getCellVertex E origin v = Some x
    /\ (x = H3_NULL <-> v < 0 \/ numVerts E origin <= v).
Proof.
  intros Hrows Hdirs Hb.
  assert (Hc : (v < 0 \/ numVerts E origin <= v)
               \/ 0 <= v < numVerts E origin) by lia.
  destruct Hc as [Hout | Hin].
  - exists H3_NULL. split; [now apply getCellVertex_outside|].
    split; [intros _; exact Hout | reflexivity].
  - destruct (getCellVertex_defined E origin v Hrows Hdirs Hb Hin)
      as [x [Hx Hnull]].
    exists x. split; [exact Hx|]. split; [intros H; now destruct Hnull | lia].
Qed.

(** X7. The owner [getCellVertex] picks among three indexes is one of the
    three, is not above any of them, and does not depend on which of the
    three plays the origin, the left or the right neighbor. *)
Theorem lowestIndex_symmetric (a b c : H3Index) :
  (lowestIndex a b c = a \/ lowestIndex a b c = b \/ lowestIndex a b c = c)
  /\ lowestIndex a b c <= a /\ lowestIndex a b c <= b
  /\ lowestIndex a b c <= c
  /\ lowestIndex a b c = lowestIndex b a c
  /\ lowestIndex a b c = lowestIndex a c b
  /\ lowestIndex a b c = lowestIndex c a b.
Proof. rewrite !lowestIndex_min. lia. Qed.

(** X8. In the simple case of [getCellVertex] (the owner is not the origin,
    both are hexagons on one face), with the two neighbors distinct: when
    the owner is the left neighbor the vertex number written is
    [(v + 4) mod 6], when it is the right neighbor [(v + 2) mod 6]. *)
Theorem simple_case_owner_vertex (origin : H3Index) (v : Z)
    (left right : Direction) (owner : H3Index) :
  directionForVertexNum E origin v = Some left ->
  left <> INVALID_DIGIT ->
  directionForVertexNum E origin (previousVertexNum E origin v) = Some right ->
  right <> INVALID_DIGIT ->
  neighborOf E origin left <> neighborOf E origin right ->
  owner = lowestIndex origin (neighborOf E origin left)
            (neighborOf E origin right) ->
  owner <> origin ->
  isSimpleCase E origin owner = true ->
  (owner = neighborOf E origin left ->
   getCellVertex E origin v = Some (vertexIndex owner ((v + 4) mod 6)))
  /\ (owner = neighborOf E origin right ->
      getCellVertex E origin v = Some (vertexIndex owner ((v + 2) mod 6))).
Proof.
  intros Hl Hln Hr Hrn Hdistinct Howner Hne Hsimple.
  pose proof (directionForVertexNum_inside origin v left Hl Hln) as Hv.
  assert (Hhex : 0 <= v < 6).
  { unfold isSimpleCase in Hsimple. unfold numVerts in Hv.
    destruct (h3IsPentagon E origin); [|exact Hv].
    rewrite andb_false_r in Hsimple. discriminate. }
  rewrite (getCellVertex_unfold E origin v left right Hl Hln Hr Hrn).
  rewrite <- Howner. unfold ownerVertexNumFor.
  apply Z.eqb_neq in Hne. rewrite Hne. simpl negb. cbv iota.
  rewrite Hsimple. split.
  - intros Hleft. rewrite <- Hleft, Z.eqb_refl.
    unfold leftOwnerVertexNum. clear - Hhex.
    enumerate v; try lia; reflexivity.
  - intros Hright.
    assert (Hnl : (owner =? neighborOf E origin left) = false).
    { apply Z.eqb_neq. intros Heq. apply Hdistinct. congruence. }
    rewrite Hnl, <- Hright, Z.eqb_refl.
    unfold rightOwnerVertexNum. clear - Hhex.
    enumerate v; try lia; reflexivity.
Qed.

(** X9. In the general case of [getCellVertex], when
    [vertexNumForDirection] rejects the direction [directionForNeighbor]
    returned, no failure is reported: a left owner gets vertex number 0, and
    for a right owner [INVALID_VERTEX_NUM] is written to the index, which is
    then not [H3_NULL] and has mode 15 and reserved bits 7. *)
Theorem rejected_direction_not_reported (origin : H3Index) (v : Z)
    (left right : Direction) (owner : H3Index) :
  directionForVertexNum E origin v = Some left ->
  left <> INVALID_DIGIT ->
  directionForVertexNum E origin (previousVertexNum E origin v) = Some right ->
  right <> INVALID_DIGIT ->
  neighborOf E origin left <> neighborOf E origin right ->
  owner = lowestIndex origin (neighborOf E origin left)
            (neighborOf E origin right) ->
  owner <> origin ->
  isSimpleCase E origin owner = false ->
  rejectedDirection E owner (directionForNeighbor E owner origin) ->
  (owner = neighborOf E origin left ->
   getCellVertex E origin v = Some (vertexIndex owner 0))
  /\ (owner = neighborOf E origin right ->
      exists x,
        getCellVertex E origin v = Some x
        /\ x <> H3_NULL
        /\ H3_GET_MODE x = 15
        /\ H3_GET_RESERVED_BITS x = 7).
Proof.
  intros Hl Hln Hr Hrn Hdistinct Howner Hne Hsimple Hrej.
  pose proof (rejectedDirection_invalid E owner _ Hrej) as Hn.
  rewrite (getCellVertex_unfold E origin v left right Hl Hln Hr Hrn).
  rewrite <- Howner. unfold ownerVertexNumFor.
  apply Z.eqb_neq in Hne. rewrite Hne. simpl negb. cbv iota.
  rewrite Hsimple. split.
  - intros Hleft. rewrite <- Hleft, Z.eqb_refl.
    unfold leftOwnerVertexNum. rewrite Hn. unfold bind.
    destruct (h3IsPentagon E owner); reflexivity.
  - intros Hright.
    assert (Hnl : (owner =? neighborOf E origin left) = false).
    { apply Z.eqb_neq. intros Heq. apply Hdistinct. congruence. }
    rewrite Hnl, <- Hright, Z.eqb_refl.
    unfold rightOwnerVertexNum. rewrite Hn. unfold bind.
    eexists. split; [reflexivity|]. split; [apply vertexIndex_not_null|].
    apply vertexIndex_invalid.
Qed.

(** X10. When the owner's base rotation is in 0..5, its [dirFaces] row is
    assigned and the direction back to the origin is one
    [vertexNumForDirection] accepts, [getCellVertex] returns an index in
    vertex mode whose reserved bits hold a vertex number of the owner. *)
Theorem getCellVertex_well_formed (origin : H3Index) (v : Z)
    (left right : Direction) (owner : H3Index) :
  directionForVertexNum E origin v = Some left ->
  left <> INVALID_DIGIT ->
  directionForVertexNum E origin (previousVertexNum E origin v) = Some right ->
  right <> INVALID_DIGIT ->
  owner = lowestIndex origin (neighborOf E origin left)
            (neighborOf E origin right) ->
  dirFacesAssigned E owner ->
  0 <= baseRotation E owner <= 5 ->
  0 <= directionForNeighbor E owner origin ->
  (owner <> origin ->
   ~ rejectedDirection E owner (directionForNeighbor E owner origin)) ->
  exists ownerVertexNum,
    getCellVertex E origin v = Some (vertexIndex owner ownerVertexNum)
    /\ 0 <= ownerVertexNum < numVerts E owner
    /\ H3_GET_MODE (vertexIndex owner ownerVertexNum) = H3_VERTEX_MODE
    /\ H3_GET_RESERVED_BITS (vertexIndex owner ownerVertexNum)
       = ownerVertexNum.
Proof.
  intros Hl Hln Hr Hrn Howner Ha Hb Hd Hback.
  pose proof (directionForVertexNum_inside origin v left Hl Hln) as Hv.
  assert (Hk : exists k,
             ownerVertexNumFor E origin v (neighborOf E origin left)
               (neighborOf E origin right) owner = Some k
             /\ 0 <= k < numVerts E owner).
  { unfold ownerVertexNumFor.
    destruct (Z.eqb_spec owner origin) as [Heq | Hne]; simpl negb; cbv iota.
    - exists v. split; [reflexivity|]. now rewrite Heq.
    - destruct (vertexNumForDirection_vertex owner
                  (directionForNeighbor E owner origin) Hd Hb Ha (Hback Hne))
        as [n [Hn Hnr]].
      assert (Hs : isSimpleCase E origin owner = true ->
                   0 <= v < NUM_HEX_VERTS /\ numVerts E owner = NUM_HEX_VERTS).
      { unfold isSimpleCase, numVerts in *. intros Hs.
        destruct (h3IsPentagon E owner); [discriminate|].
        destruct (h3IsPentagon E origin); [discriminate|]. now split. }
      destruct (Z.eqb_spec owner (neighborOf E origin left)) as [Hleft | Hnl].
      + unfold leftOwnerVertexNum.
        destruct (isSimpleCase E origin owner).
        * destruct (Hs eq_refl) as [Hv6 Hn6]. rewrite Hn6.
          now apply neighborVertex_defined; [|left].
        * rewrite Hn. unfold bind. unfold numVerts in *.
          destruct (h3IsPentagon E owner);
            unfold NUM_PENT_VERTS, NUM_HEX_VERTS in *;
            simpl andb; enumerate n; try lia;
            (eexists; split; [reflexivity | lia]).
      + destruct (Z.eqb_spec owner (neighborOf E origin right))
          as [Hright | Hnr'].
        * unfold rightOwnerVertexNum.
          destruct (isSimpleCase E origin owner).
          -- destruct (Hs eq_refl) as [Hv6 Hn6]. rewrite Hn6.
             now apply neighborVertex_defined; [|right].
          -- eauto.
        * exfalso.
          destruct (lowestIndex_cases origin (neighborOf E origin left)
                      (neighborOf E origin right)) as [H | [H | H]];
            congruence. }
  destruct Hk as [k [Hk Hrange]].
  assert (H8 : 0 <= k < 8).
  { unfold numVerts in Hrange. destruct (h3IsPentagon E owner);
      unfold NUM_PENT_VERTS, NUM_HEX_VERTS in Hrange; lia. }
  exists k. split; [|split; [exact Hrange | split]].
  - rewrite (getCellVertex_unfold E origin v left right Hl Hln Hr Hrn).
    rewrite <- Howner, Hk. reflexivity.
  - now apply vertexIndex_mode.
  - now apply vertexIndex_reserved.
Qed.

End CellVertexFurther.

(** ** The point of a vertex *)

Section VertexPointFurther.

Variable E : Collaborators.
Variable G : BoundaryRoutines.

(** X12. For a cell index [owner] (cell mode, reserved bits cleared) and a
    vertex number below 8, [vertexToPoint] on the vertex index
    [getCellVertex] builds from them recovers the owner and the vertex
    number, and returns the first vertex of the boundary asked for that
    owner from that vertex number, with the pentagon routine exactly when
    the owner is a pentagon. *)
Theorem vertexToPoint_vertexIndex (owner : H3Index) (ownerVertexNum : Z) :
  isCellIndex owner ->
  0 <= ownerVertexNum < 8 ->
  vertexOwner (vertexIndex owner ownerVertexNum) = owner
  /\ H3_GET_RESERVED_BITS (vertexIndex owner ownerVertexNum) = ownerVertexNum
  /\ vertexToPoint E G (vertexIndex owner ownerVertexNum)
     = index (verts (if h3IsPentagon E owner
                     then _faceIjkPentToGeoBoundary G (_h3ToFaceIjk E owner)
                            (H3_GET_RESOLUTION owner) ownerVertexNum 1
                     else _faceIjkToGeoBoundary G (_h3ToFaceIjk E owner)
                            (H3_GET_RESOLUTION owner) ownerVertexNum 1)) 0.
Proof.
  intros Hc Hk.
  pose proof (vertexOwner_vertexIndex owner ownerVertexNum Hc Hk) as Ho.
  pose proof (vertexIndex_reserved owner ownerVertexNum Hk) as Hr.
  split; [exact Ho|]. split; [exact Hr|].
  unfold vertexToPoint. rewrite Ho, Hr. unfold boundaryVertex.
  destruct (h3IsPentagon E owner); reflexivity.
Qed.

End VertexPointFurther.

(** ** The further properties on the sample grids *)

Lemma vertexRotations_count_witness :
  exists r,
    vertexRotations (Sample.collaborators (fun _ => 1)) (Sample.cell 4 3) true
    = Some r
    /\ 0 <= r <= 5
    /\ (true = false
        \/ _isBaseCellPentagon (Sample.collaborators (fun _ => 1))
             (h3GetBaseCell (Sample.collaborators (fun _ => 1))
                (Sample.cell 4 3)) = false ->
        r = baseRotation (Sample.collaborators (fun _ => 1))
              (Sample.cell 4 3)).
Proof.
  apply (vertexRotations_count (Sample.collaborators (fun _ => 1))
           (Sample.cell 4 3) true).
  - apply SampleFacts.rows_assigned.
  - vm_compute. split; discriminate.
Defined.

Lemma vertexRotations_adjustment_witness :
  exists r,
    vertexRotations Sample.grid (Sample.cell 4 5) true = Some r
    /\ (r = baseRotation Sample.grid (Sample.cell 4 5)
        \/ r = (baseRotation Sample.grid (Sample.cell 4 5) + 1) mod 6
        \/ r = (baseRotation Sample.grid (Sample.cell 4 5) - 1) mod 6
        \/ (_isBaseCellPolarPentagon Sample.grid
              (h3GetBaseCell Sample.grid (Sample.cell 4 5)) = true
            /\ r = (baseRotation Sample.grid (Sample.cell 4 5) + 2) mod 6)).
Proof.
  apply (vertexRotations_adjustment Sample.grid (Sample.cell 4 5)
           {| baseCell := 4; faces := [4; 0; 2; 1; 3] |}).
  - reflexivity.
  - reflexivity.
  - vm_compute. split; discriminate.
Defined.

Lemma directionForVertexNum_invalid_iff_witness :
  exists d,
    directionForVertexNum Sample.grid Sample.pentagon 5 = Some d
    /\ (d = INVALID_DIGIT
        <-> 5 < 0 \/ numVerts Sample.grid Sample.pentagon <= 5)
    /\ (d <> INVALID_DIGIT ->
        K_AXES_DIGIT <= d <= IJ_AXES_DIGIT
        /\ (h3IsPentagon Sample.grid Sample.pentagon = true ->
            d <> K_AXES_DIGIT)).
Proof.
  apply (directionForVertexNum_invalid_iff Sample.grid Sample.pentagon 5).
  - vm_compute. split; discriminate.
  - apply SampleFacts.rows_assigned.
Defined.

Lemma direction_vertexNum_inverse_witness :
  exists n,
    vertexNumForDirection Sample.grid Sample.hexagon K_AXES_DIGIT = Some n
    /\ 0 <= n < numVerts Sample.grid Sample.hexagon
    /\ directionForVertexNum Sample.grid Sample.hexagon n = Some K_AXES_DIGIT.
Proof.
  apply (direction_vertexNum_inverse Sample.grid Sample.hexagon K_AXES_DIGIT).
  - unfold K_AXES_DIGIT. lia.
  - vm_compute. split; discriminate.
  - apply SampleFacts.rows_assigned.
  - intros H. vm_compute in H. intuition congruence.
Defined.

Lemma getCellVertex_null_iff_witness :
  exists x,
    getCellVertex Sample.grid Sample.pentagon 5 = Some x
    /\ (x = H3_NULL <-> 5 < 0 \/ numVerts Sample.grid Sample.pentagon <= 5).
Proof.
  apply (getCellVertex_null_iff Sample.grid Sample.pentagon 5).
  - apply SampleFacts.rows_assigned.
  - apply SampleFacts.directions_unsigned.
  - vm_compute. split; discriminate.
Defined.

Lemma simple_case_owner_vertex_witness :
  (Sample.cell 15 3 = neighborOf SampleVariants.flat Sample.hexagon 1 ->
   getCellVertex SampleVariants.flat Sample.hexagon 1
   = Some (vertexIndex (Sample.cell 15 3) ((1 + 4) mod 6)))
  /\ (Sample.cell 15 3 = neighborOf SampleVariants.flat Sample.hexagon 3 ->
      getCellVertex SampleVariants.flat Sample.hexagon 1
      = Some (vertexIndex (Sample.cell 15 3) ((1 + 2) mod 6))).
Proof.
  apply (simple_case_owner_vertex SampleVariants.flat Sample.hexagon 1 1 3
           (Sample.cell 15 3)).
  - reflexivity.
  - discriminate.
  - reflexivity.
  - discriminate.
  - vm_compute. discriminate.
  - reflexivity.
  - vm_compute. discriminate.
  - reflexivity.
Defined.

Lemma rejected_direction_not_reported_witness :
  (Sample.cell 17 3 = neighborOf SampleVariants.lost Sample.hexagon 3 ->
   getCellVertex SampleVariants.lost Sample.hexagon 0
   = Some (vertexIndex (Sample.cell 17 3) 0))
  /\ (Sample.cell 17 3 = neighborOf SampleVariants.lost Sample.hexagon 2 ->
      exists x,
        getCellVertex SampleVariants.lost Sample.hexagon 0 = Some x
        /\ x <> H3_NULL
        /\ H3_GET_MODE x = 15
        /\ H3_GET_RESERVED_BITS x = 7).
Proof.
  apply (rejected_direction_not_reported SampleVariants.lost Sample.hexagon
           0 3 2 (Sample.cell 17 3)).
  - reflexivity.
  - discriminate.
  - reflexivity.
  - discriminate.
  - vm_compute. discriminate.
  - reflexivity.
  - vm_compute. discriminate.
  - reflexivity.
  - right. left. vm_compute. discriminate.
Defined.

Lemma getCellVertex_well_formed_witness :
  exists ownerVertexNum,
    getCellVertex Sample.grid Sample.hexagon 1
    = Some (vertexIndex (Sample.cell 15 3) ownerVertexNum)
    /\ 0 <= ownerVertexNum < numVerts Sample.grid (Sample.cell 15 3)
    /\ H3_GET_MODE (vertexIndex (Sample.cell 15 3) ownerVertexNum)
       = H3_VERTEX_MODE
    /\ H3_GET_RESERVED_BITS (vertexIndex (Sample.cell 15 3) ownerVertexNum)
       = ownerVertexNum.
Proof.
  apply (getCellVertex_well_formed Sample.grid Sample.hexagon 1 1 3
           (Sample.cell 15 3)).
  - reflexivity.
  - discriminate.
  - reflexivity.
  - discriminate.
  - reflexivity.
  - apply SampleFacts.rows_assigned.
  - vm_compute. split; discriminate.
  - vm_compute. discriminate.
  - intros _ H. vm_compute in H. intuition congruence.
Defined.

Lemma vertexToPoint_vertexIndex_witness :
  vertexOwner (vertexIndex Sample.pentagon 3) = Sample.pentagon
  /\ H3_GET_RESERVED_BITS (vertexIndex Sample.pentagon 3) = 3
  /\ vertexToPoint Sample.grid SampleBoundary.routines
       (vertexIndex Sample.pentagon 3)
     = index (verts (if h3IsPentagon Sample.grid Sample.pentagon
                     then _faceIjkPentToGeoBoundary SampleBoundary.routines
                            (_h3ToFaceIjk Sample.grid Sample.pentagon)
                            (H3_GET_RESOLUTION Sample.pentagon) 3 1
                     else _faceIjkToGeoBoundary SampleBoundary.routines
                            (_h3ToFaceIjk Sample.grid Sample.pentagon)
                            (H3_GET_RESOLUTION Sample.pentagon) 3 1)) 0.
Proof.
  apply (vertexToPoint_vertexIndex Sample.grid SampleBoundary.routines
           Sample.pentagon 3).
  - vm_compute. repeat split; discriminate.
  - lia.
Defined.

(** The point of vertex 3 of the sample pentagon: the pentagon routine, on
    face 0 at resolution 1. *)
Example pentagon_vertex_point :
  vertexToPoint Sample.grid SampleBoundary.routines
    (vertexIndex Sample.pentagon 3) = Some (true, 0, 1, 3).
Proof. reflexivity. Qed.
